(** * pot/livetime.py: interval POT queries and detector livetime

    A shallow embedding of [query_pot_interval] and [get_livetime_interval]
    and the properties of the livetime computation.

    Modelling choices.
    - A [datetime] is an instant, counted in microseconds since the Unix
      epoch (the resolution of Python's [datetime]); a [timedelta] is a signed
      number of microseconds.  Comparison, [max], [min] and subtraction of
      timezone-aware datetimes act on instants, hence on these integers.  The
      bounds of Python's types (years 1 to 9999, 999999999 days) are not
      modelled.
    - Python floats and the two numpy calls ([np.array(.., dtype=float)] and
      [np.sum]) are reached through the interface [FloatOps].  Two
      implementations are given: [Binary64Float], IEEE 754 double precision
      on [spec_float], and [ExactFloat], rational arithmetic without
      rounding.  A property that needs a fact of floating-point arithmetic
      names it ([FloatLaws], [RoundingLaws], [NumpyLaws], [SignLaws],
      [UnitLaws], [TimestampLaws], [MonotoneLaws]) and so holds for every
      implementation with that fact; the facts are proved for both
      implementations.
    - The remote service is a function from the requested URL to a response;
      every [requests.get] is recorded in a log that the computation threads
      along, and exceptions are values of [exn]. *)

From Stdlib Require Import ZArith List String Ascii Bool Lia.
From Stdlib Require Import QArith Qround Qreduction Permutation.
From Stdlib Require Import SpecFloat DecimalString DecimalZ DecimalPos.
Import ListNotations.

Local Open Scope string_scope.
Local Open Scope list_scope.
Local Open Scope Z_scope.

(** ** Python values *)

(** [str(n)] for an [int]. *)
Definition str_of_int (n : Z) : string := NilZero.string_of_int (Z.to_int n).

(** [s.split(sep)] for a one-character separator: the pieces between the
    separators, never an empty list. *)
Fixpoint split (sep : ascii) (s : string) : list string :=
  match s with
  | EmptyString => [EmptyString]
  | String c rest =>
      if Ascii.eqb c sep then EmptyString :: split sep rest
      else match split sep rest with
           | [] => [String c EmptyString]
           | w :: ws => String c w :: ws
           end
  end.

(** The truth value of a string: [if line]. *)
Definition nonempty (s : string) : bool :=
  match s with EmptyString => false | String _ _ => true end.

Definition newline : ascii := "010"%char.
Definition comma : ascii := ","%char.

(** Microseconds since the epoch, and microseconds. *)
Definition datetime := Z.
Definition timedelta := Z.

(** The exceptions the module raises. *)
Inductive exn : Type :=
| RuntimeError (msg : string)
| ValueError
| ZeroDivisionError.

Inductive result (A : Type) : Type :=
| Ok (a : A)
| Raise (e : exn).
Arguments Ok {A} a.
Arguments Raise {A} e.

(** ** Floats *)

Class FloatOps : Type := {
  float : Type;
  fzero : float;                       (* 0.0 *)
  fone : float;                        (* 1.0 *)
  int_truediv : Z -> Z -> float;       (* a / b on two ints, b nonzero *)
  float_add : float -> float -> float; (* x + y *)
  float_div : float -> float -> float; (* x / y, y nonzero *)
  float_eqb : float -> float -> bool;  (* x == y *)
  float_leb : float -> float -> bool;  (* x <= y *)
  float_ltb : float -> float -> bool;  (* x < y *)
  float_trunc : float -> Z;            (* int(x), x finite *)
  np_float : string -> option float;   (* numpy's str -> float64; None: ValueError *)
  np_sum : list float -> float         (* float(np.sum(data)) *)
}.

(** A Python number: the accumulator [collected_pot] starts as the int [0]
    and becomes a float with the first addition. *)
Inductive pynum `{FloatOps} : Type :=
| PyInt (n : Z)
| PyFloat (x : float).

Section Python.
Context `{F : FloatOps}.

(** [float(n)]. *)
Definition float_of_int (n : Z) : float := int_truediv n 1.

Definition as_float (a : pynum) : float :=
  match a with PyInt n => float_of_int n | PyFloat x => x end.

(** [a + b]. *)
Definition py_add (a b : pynum) : pynum :=
  match a, b with
  | PyInt m, PyInt n => PyInt (m + n)
  | _, _ => PyFloat (float_add (as_float a) (as_float b))
  end.

(** [a == b]. *)
Definition py_eqb (a b : pynum) : bool :=
  match a, b with
  | PyInt m, PyInt n => Z.eqb m n
  | _, _ => float_eqb (as_float a) (as_float b)
  end.

(** [td.total_seconds()]: the microsecond count over [10**6]. *)
Definition total_seconds (td : timedelta) : float := int_truediv td 1000000.

(** [dt.timestamp()] of an aware datetime, [(dt - EPOCH).total_seconds()]. *)
Definition timestamp (dt : datetime) : float := total_seconds dt.
End Python.

(** ** The computation: a log of requests and exceptions *)

Definition M (A : Type) : Type := list string -> result A * list string.

Definition ret {A} (a : A) : M A := fun log => (Ok a, log).
Definition raise {A} (e : exn) : M A := fun log => (Raise e, log).
Definition bind {A B} (c : M A) (k : A -> M B) : M B :=
  fun log =>
    match c log with
    | (Ok a, log') => k a log'
    | (Raise e, log') => (Raise e, log')
    end.

Notation "x <- c ;; k" := (bind c (fun x => k))
  (at level 61, c at next level, right associativity).

(** A [for] loop over a list with an accumulator. *)
Fixpoint for_each {A B} (body : A -> B -> M A) (a : A) (l : list B) : M A :=
  match l with
  | [] => ret a
  | b :: l' => a' <- body a b ;; for_each body a' l'
  end.

(** [np.array(fields, dtype=float)]: every field converted, [ValueError] at
    the first that is not a number. *)
Fixpoint np_array_float `{FloatOps} (fields : list string) : option (list float) :=
  match fields with
  | [] => Some []
  | f :: fs =>
      match np_float f with
      | None => None
      | Some x =>
          match np_array_float fs with
          | None => None
          | Some xs => Some (x :: xs)
          end
      end
  end.

(** ** The module *)

Record Response : Type := { status_code : Z; text : string }.

Definition base : string := "https://dbdata1vm.fnal.gov:9443/ifbeam/data".
Definition device_name : string := "E:TOR875".

Record report `{FloatOps} : Type := {
  livetime : float;
  livetime_fraction : float;
  delivered_spills : Z;
  collected_spills : Z;
  delivered_pot : float;
  collected_pot : pynum
}.

(** The three accumulators of the loop. *)
Record acc `{FloatOps} : Type := {
  acc_overlap : timedelta;
  acc_spills : Z;
  acc_pot : pynum
}.

Section Livetime.
Context `{F : FloatOps}.
Variable requests_get : string -> Response.

Definition get (url : string) : M Response :=
  fun log => (Ok (requests_get url), log ++ [url]).

(** The f-string of line 39. *)
Definition query_url (t0 t1 : datetime) : string :=
  (base ++ "/data?v=" ++ device_name ++ "&e=e,1d&t0="
    ++ str_of_int (float_trunc (timestamp t0))
    ++ "&t1=" ++ str_of_int (float_trunc (timestamp t1)) ++ "&f=csv")%string.

(** The list comprehension of line 45, before the conversion. *)
Definition sample_fields (body : string) : list string :=
  map (fun line => last (split comma line) EmptyString)
      (filter nonempty (tl (split newline body))).

Definition parse_response (response : Response) : M (Z * float) :=
  if negb (status_code response =? 200) then
    raise (RuntimeError ("Error querying data: " ++ str_of_int (status_code response))%string)
  else
    match np_array_float (sample_fields (text response)) with
    | None => raise ValueError
    | Some data => ret (Z.of_nat (List.length data), np_sum data)
    end.

Definition query_pot_interval (t0 t1 : datetime) : M (Z * float) :=
  let s0 := t0 in
  let s1 := t1 in
  let url := query_url s0 s1 in
  response <- get url ;;
  parse_response response.

(** [x / y] on floats. *)
Definition py_truediv (x y : float) : M float :=
  if float_eqb y fzero then raise ZeroDivisionError else ret (float_div x y).

(** The test of line 93. *)
Definition skipped (t0 t1 start end_ : datetime) : bool :=
  (start >? t1) || (end_ <? t0).

(** The clipped window [(s0, s1)] of lines 95 and 96. *)
Definition clip (t0 t1 start end_ : datetime) : datetime * datetime :=
  (Z.max t0 start, Z.min t1 end_).

(** The body of the loop, lines 93 to 100. *)
Definition loop_body (t0 t1 : datetime) (a : acc) (p : datetime * datetime) : M acc :=
  let '(start, end_) := p in
  if skipped t0 t1 start end_ then ret a
  else
    let '(s0, s1) := clip t0 t1 start end_ in
    let overlap := acc_overlap a + (s1 - s0) in
    query <- query_pot_interval s0 s1 ;;
    ret {| acc_overlap := overlap;
           acc_spills := acc_spills a + fst query;
           acc_pot := py_add (acc_pot a) (PyFloat (snd query)) |}.

Definition init : acc :=
  {| acc_overlap := 0; acc_spills := 0; acc_pot := PyInt 0 |}.

Definition get_livetime_interval (t0 t1 : datetime) (starts ends : list datetime)
  : M report :=
  a <- for_each (loop_body t0 t1) init (combine starts ends) ;;
  query <- query_pot_interval t0 t1 ;;
  let delivered_spills := fst query in
  let delivered_pot := snd query in
  let livetime := total_seconds (acc_overlap a) in
  livetime_fraction <- py_truediv livetime (total_seconds (t1 - t0)) ;;
  ret {| livetime := livetime;
         livetime_fraction := livetime_fraction;
         delivered_spills := delivered_spills;
         collected_spills := acc_spills a;
         delivered_pot := delivered_pot;
         collected_pot := acc_pot a |}.

(** A call from an empty log. *)
Definition run {A} (c : M A) : result A * list string := c [].
End Livetime.

(** ** Reading a run *)

Section Reading.
Context `{F : FloatOps}.
Variable requests_get : string -> Response.

(** What the service answers for a window: the outcome of the query, which
    does not depend on the log. *)
Definition answer (w : datetime * datetime) : result (Z * float) :=
  fst (parse_response (requests_get (query_url (fst w) (snd w))) []).

Definition answers (w : datetime * datetime) : Prop :=
  exists q, answer w = Ok q.

(** The pairs the loop does not skip and their clipped windows, in the order
    of the lists. *)
Definition live (t0 t1 : datetime) (p : datetime * datetime) : bool :=
  negb (skipped t0 t1 (fst p) (snd p)).

Definition windows (t0 t1 : datetime) (pairs : list (datetime * datetime))
  : list (datetime * datetime) :=
  map (fun p => clip t0 t1 (fst p) (snd p)) (filter (live t0 t1) pairs).

(** One turn of the loop for a window that is not skipped and whose query
    returned [q]. *)
Definition add_query (a : acc) (w : datetime * datetime) (q : Z * float) : acc :=
  {| acc_overlap := acc_overlap a + (snd w - fst w);
     acc_spills := acc_spills a + fst q;
     acc_pot := py_add (acc_pot a) (PyFloat (snd q)) |}.

(** The loop over the clipped windows alone. *)
Fixpoint collect (ws : list (datetime * datetime)) (a : acc) : M acc :=
  match ws with
  | [] => ret a
  | w :: ws' =>
      fun log =>
        let log' := log ++ [query_url (fst w) (snd w)] in
        match answer w with
        | Ok q => collect ws' (add_query a w q) log'
        | Raise e => (Raise e, log')
        end
  end.

(** The value a query returned, for a window that answers. *)
Definition returned (w : datetime * datetime) : Z * float :=
  match answer w with Ok q => q | Raise _ => (0, fzero) end.

Definition total_overlap (ws : list (datetime * datetime)) : Z :=
  fold_right (fun w s => (snd w - fst w) + s) 0 ws.

Definition total_spills (ws : list (datetime * datetime)) : Z :=
  fold_right (fun w s => fst (returned w) + s) 0 ws.

(** [collected_pot] after adding the given values in order. *)
Definition pot_sum (start : pynum) (pots : list float) : pynum :=
  fold_left (fun a x => py_add a (PyFloat x)) pots start.

(** The POT values the queries for the windows returned, in order. *)
Definition pots (ws : list (datetime * datetime)) : list float :=
  map (fun w => snd (returned w)) ws.

(** The URL requested for a window. *)
Definition url_of (w : datetime * datetime) : string :=
  query_url (fst w) (snd w).

(** The accumulators after the loop, when every query returned. *)
Definition final_acc (ws : list (datetime * datetime)) (a : acc) : acc :=
  fold_left (fun a w => add_query a w (returned w)) ws a.

(** The report of a call in which every query returned and the window is
    not empty. *)
Definition report_of (t0 t1 : datetime) (ws : list (datetime * datetime)) : report :=
  let a := final_acc ws init in
  {| livetime := total_seconds (acc_overlap a);
     livetime_fraction :=
       float_div (total_seconds (acc_overlap a)) (total_seconds (t1 - t0));
     delivered_spills := fst (returned (t0, t1));
     collected_spills := acc_spills a;
     delivered_pot := snd (returned (t0, t1));
     collected_pot := acc_pot a |}.
End Reading.

(** The six values of the report a call returned, [collected_pot] as a
    float; [None] when the call raised. *)
Definition returned_values `{FloatOps} (r : result report * list string)
  : option (float * float * Z * Z * float * float) :=
  match fst r with
  | Ok rep =>
      Some (livetime rep, livetime_fraction rep, delivered_spills rep,
            collected_spills rep, delivered_pot rep, as_float (collected_pot rep))
  | Raise _ => None
  end.

(** The exception a call raised, [None] when it returned, and the requests
    it had made. *)
Definition raised_exception {A} (r : result A * list string)
  : option exn * list string :=
  (match fst r with Ok _ => None | Raise e => Some e end, snd r).

(** ** Two implementations of the floats *)

(** Decimal literals, shared by both: an optional sign, digits with an
    optional point, an optional exponent.  [Some (neg, m, e)] stands for
    [m * 10^e], negated when [neg].  The other spellings numpy accepts
    (surrounding blanks, [inf], [nan]) are not recognised. *)
Definition digit_of (c : ascii) : option Z :=
  let n := Z.of_nat (nat_of_ascii c) in
  if (48 <=? n) && (n <=? 57) then Some (n - 48) else None.

Fixpoint read_digits (s : string) (value count : Z) : Z * Z * string :=
  match s with
  | EmptyString => (value, count, s)
  | String c rest =>
      match digit_of c with
      | Some d => read_digits rest (10 * value + d) (count + 1)
      | None => (value, count, s)
      end
  end.

Definition read_sign (s : string) : bool * string :=
  match s with
  | String "-" rest => (true, rest)
  | String "+" rest => (false, rest)
  | _ => (false, s)
  end.

Definition parse_decimal (s : string) : option (bool * Z * Z) :=
  let '(neg, s1) := read_sign s in
  let '(ip, ni, s2) := read_digits s1 0 0 in
  let '(m, nf, s3) :=
    match s2 with
    | String "." rest => read_digits rest ip 0
    | _ => (ip, 0, s2)
    end in
  if ni + nf =? 0 then None
  else
    match s3 with
    | EmptyString => Some (neg, m, - nf)
    | String c rest =>
        if Ascii.eqb c "e" || Ascii.eqb c "E" then
          let '(eneg, r1) := read_sign rest in
          let '(ev, ne, r2) := read_digits r1 0 0 in
          match r2 with
          | EmptyString =>
              if ne =? 0 then None
              else Some (neg, m, (if eneg then - ev else ev) - nf)
          | String _ _ => None
          end
        else None
    end.

(** The integers [n], [d] with [m * 10^e = n / d]. *)
Definition decimal_fraction (m e : Z) : Z * positive :=
  if 0 <=? e then (m * 10 ^ e, 1%positive) else (m, Z.to_pos (10 ^ (- e))).

Module Exact.
(** Rationals kept in lowest terms, so that equal numbers are equal terms. *)
Definition truediv (a b : Z) : Q := Qred (inject_Z a / inject_Z b).
Definition add (x y : Q) : Q := Qred (x + y).
Definition div (x y : Q) : Q := Qred (x / y).
Definition ltb (x y : Q) : bool := negb (Qle_bool y x).
Definition trunc (x : Q) : Z := Z.quot (Qnum x) (Zpos (Qden x)).
Definition of_string (s : string) : option Q :=
  match parse_decimal s with
  | None => None
  | Some (neg, m, e) =>
      let '(n, d) := decimal_fraction m e in
      Some (Qred ((if neg then - n else n) # d))
  end.
Definition sum (data : list Q) : Q := fold_left add data 0%Q.
End Exact.

#[export] Instance ExactFloat : FloatOps := {|
  float := Q;
  fzero := 0%Q;
  fone := 1%Q;
  int_truediv := Exact.truediv;
  float_add := Exact.add;
  float_div := Exact.div;
  float_eqb := Qeq_bool;
  float_leb := Qle_bool;
  float_ltb := Exact.ltb;
  float_trunc := Exact.trunc;
  np_float := Exact.of_string;
  np_sum := Exact.sum
|}.

Module Binary64.
Definition prec : Z := 53.
Definition emax : Z := 1024.

Definition pos_zero : spec_float := S754_zero false.

(** The quotient of two integers rounded once, to nearest even; Python
    gives the zero the sign of the quotient as well. *)
Definition truediv (a b : Z) : spec_float :=
  let neg := xorb (a <? 0) (b <? 0) in
  match Z.abs a, Z.abs b with
  | Zpos ma, Zpos mb => SFdiv prec emax (S754_finite neg ma 0) (S754_finite false mb 0)
  | Z0, Zpos _ => S754_zero neg
  | _, _ => S754_nan
  end.

(** [int(x)]: the integer part, towards zero. *)
Definition trunc (x : spec_float) : Z :=
  match x with
  | S754_finite s m e =>
      let n := if 0 <=? e then Zpos m * 2 ^ e else Zpos m / 2 ^ (- e) in
      if s then - n else n
  | _ => 0
  end.

Definition of_string (s : string) : option spec_float :=
  match parse_decimal s with
  | None => None
  | Some (neg, m, e) =>
      let '(n, d) := decimal_fraction m e in
      match n with
      | Zpos mn => Some (SFdiv prec emax (S754_finite neg mn 0) (S754_finite false d 0))
      | _ => Some (S754_zero neg)
      end
  end.

(** The additions in the order of the array, from [0.0].  (numpy adds long
    arrays in pairwise blocks; the properties below do not depend on the
    order, they go through [np_sum].) *)
Definition sum (data : list spec_float) : spec_float :=
  fold_left (SFadd prec emax) data pos_zero.
End Binary64.

#[export] Instance Binary64Float : FloatOps := {|
  float := spec_float;
  fzero := Binary64.pos_zero;
  fone := SFone Binary64.prec Binary64.emax;
  int_truediv := Binary64.truediv;
  float_add := SFadd Binary64.prec Binary64.emax;
  float_div := SFdiv Binary64.prec Binary64.emax;
  float_eqb := SFeqb;
  float_leb := SFleb;
  float_ltb := SFltb;
  float_trunc := Binary64.trunc;
  np_float := Binary64.of_string;
  np_sum := Binary64.sum
|}.

(** ** Facts of floating-point arithmetic the properties rest on *)

(** The range of a Python [timedelta]: at most 999999999 days either way. *)
Definition is_timedelta (td : Z) : Prop :=
  Z.abs td <= 86399999999999999999999.

(** Facts about zero. *)
Class FloatLaws (F : FloatOps) : Prop := {
  truediv_zero : forall n, 0 < n -> int_truediv 0 n = fzero;
  fzero_eqb : float_eqb fzero fzero = true;
  total_seconds_number : forall td,
    float_eqb (total_seconds td) (total_seconds td) = true;
  total_seconds_nonzero : forall td,
    td <> 0 -> float_eqb (total_seconds td) fzero = false;
  fdiv_zero_l : forall y,
    float_eqb y y = true -> float_eqb y fzero = false ->
    float_eqb (float_div fzero y) fzero = true
}.

(** The sum of no sample is [0.0]. *)
Class NumpyLaws (F : FloatOps) : Prop := {
  np_sum_nil : np_sum [] = fzero
}.

(** A fact about rounding: the quotient of two durations in seconds,
    [0 <= a <= b] microseconds with [b] a positive timedelta, lies between
    [0.0] and [1.0].  (Rounding to nearest keeps the order, and [0.0] and
    [1.0] are floats.) *)
Class RoundingLaws (F : FloatOps) : Prop := {
  seconds_ratio_unit : forall a b,
    0 <= a <= b -> 0 < b -> is_timedelta b ->
    float_leb fzero (float_div (total_seconds a) (total_seconds b)) = true
    /\ float_leb (float_div (total_seconds a) (total_seconds b)) fone = true
}.

(** Facts about the sign: a number of seconds that is not negative, and its
    quotient by a positive duration. *)
Class SignLaws (F : FloatOps) : Prop := {
  seconds_nonneg : forall a,
    0 <= a -> float_leb fzero (total_seconds a) = true;
  seconds_ratio_nonneg : forall a b,
    0 <= a -> 0 < b -> is_timedelta b ->
    float_leb fzero (float_div (total_seconds a) (total_seconds b)) = true
}.

(** Facts about [1.0] and [0.0]: a positive duration over itself, and the
    sum of [0.0] and a number. *)
Class UnitLaws (F : FloatOps) : Prop := {
  seconds_ratio_self : forall b,
    0 < b -> is_timedelta b ->
    float_eqb (float_div (total_seconds b) (total_seconds b)) fone = true;
  fadd_zero_l : forall x,
    float_eqb x x = true -> float_eqb (float_add fzero x) x = true
}.

(** The last instant, in microseconds, up to which [int(dt.timestamp())] is
    proved to drop the fraction of the second: [2^34] seconds after the
    epoch, in the year 2514. *)
Definition whole_seconds_horizon : Z := 17179869184000000.

(** A fact about [int(dt.timestamp())]: from the epoch to the horizon it is
    the number of whole seconds. *)
Class TimestampLaws (F : FloatOps) : Prop := {
  timestamp_whole_seconds : forall us,
    0 <= us < whole_seconds_horizon ->
    float_trunc (timestamp us) = us / 1000000
}.

(** A fact about the order: more microseconds are not fewer seconds. *)
Class MonotoneLaws (F : FloatOps) : Prop := {
  seconds_mono : forall a b,
    0 <= a <= b -> is_timedelta b ->
    float_leb (total_seconds a) (total_seconds b) = true
}.

(** A number that is neither a zero nor a NaN. *)
Definition nonzero_number (x : spec_float) : Prop :=
  match x with
  | S754_finite _ _ _ | S754_infinity _ => True
  | S754_zero _ | S754_nan => False
  end.

(** The round and sticky bits of a record place the fraction [r / c] of
    the mantissa in [[0, 1)]: at 0, below the half, at the half, above. *)
Definition encodes (mrs : shr_record) (r c : Z) : Prop :=
  match shr_r mrs, shr_s mrs with
  | false, false => r = 0
  | false, true => 0 < r /\ 2 * r < c
  | true, false => 2 * r = c
  | true, true => c < 2 * r
  end.

(** ** Intervals and lines, for the statements *)



(** [c in s]. *)
Fixpoint contains (c : ascii) (s : string) : bool :=
  match s with
  | EmptyString => false
  | String a rest => Ascii.eqb a c || contains c rest
  end.

(** [sep.join(pieces)] for a one-character separator. *)
Definition join (sep : ascii) (pieces : list string) : string :=
  String.concat (String sep EmptyString) pieces.

(** A data line and the sample it carries: the line is its fields joined by
    commas, and its last field converts to [x]. *)
Definition carries `{FloatOps} (line : string) (sample : list string * float) : Prop :=
  let '(fields, x) := sample in
  fields <> [] /\ Forall (fun f => contains comma f = false) fields
  /\ line = join comma fields
  /\ np_float (last fields EmptyString) = Some x.

(** The character that separates the parameters of the URL. *)
Definition ampersand : ascii := "&"%char.

(** ** Services for the examples *)

(** A service that answers every request with a header and no sample. *)
Definition no_beam (url : string) : Response :=
  {| status_code := 200; text := "clock,value" |}.

(** A service that is down. *)
Definition down (url : string) : Response :=
  {| status_code := 500; text := "Internal Server Error" |}.

Definition nl : string := String newline EmptyString.

(** A service on doubles with three windows of one spill each, of sizes that
    do not add up in the same way in every order, and four spills over the
    ten seconds from 1700000000. *)
Definition three_spills (url : string) : Response :=
  let window := query_url (F := Binary64Float) in
  let body (rows : list string) := String.concat nl ("clock,value" :: rows) in
  if String.eqb url (window 1700000001000000 1700000002000000) then
    {| status_code := 200; text := body ["1700000001500,1e16"] |}
  else if String.eqb url (window 1700000003000000 1700000004000000) then
    {| status_code := 200; text := body ["1700000003500,1.0"] |}
  else if String.eqb url (window 1700000005000000 1700000006000000) then
    {| status_code := 200; text := body ["1700000005500,-1e16"] |}
  else if String.eqb url (window 1700000000000000 1700000010000000) then
    {| status_code := 200;
       text := body ["1700000001500,1e16"; "1700000003500,1.0";
                     "1700000005500,-1e16"; "1700000008500,2.5"; ""] |}
  else {| status_code := 404; text := "" |}.

(** A service whose one data line does not end in a number. *)
Definition garbled (url : string) : Response :=
  {| status_code := 200;
     text := String.concat nl ["clock,value"; "1700000001500,abc"] |}.

(** The window of the examples, ten seconds from 1700000000, and the three
    seconds in it for which [three_spills] has an answer. *)
Definition example_t0 : datetime := 1700000000000000.
Definition example_t1 : datetime := 1700000010000000.
Definition example_starts : list datetime :=
  [1700000001000000; 1700000003000000; 1700000005000000].
Definition example_ends : list datetime :=
  [1700000002000000; 1700000004000000; 1700000006000000].

(** A service that answers as [three_spills] does for the ten seconds, in
    another layout: another header, blank lines, other leading fields. *)
Definition three_spills_relaid (url : string) : Response :=
  {| status_code := 200;
     text := String.concat nl
               ["time,device,unit,value"; EmptyString; "E:TOR875,1e16"; "1.0";
                EmptyString;
                "a,b,c,-1e16"; "1700000008500,E12,2.5"] |}.

(** ** The log and the exceptions *)

Section Run.
Context `{F : FloatOps}.
Variable requests_get : string -> Response.

Lemma parse_response_log (response : Response) (log : list string) :
  parse_response response log = (fst (parse_response response []), log).
Proof.
  unfold parse_response.
  destruct (negb (status_code response =? 200)); [reflexivity|].
  destruct (np_array_float (sample_fields (text response))); reflexivity.
Qed.

(** A query makes one request and returns what the service answers. *)
Lemma query_pot_interval_run (t0 t1 : datetime) (log : list string) :
  query_pot_interval requests_get t0 t1 log
  = (answer requests_get (t0, t1), log ++ [query_url t0 t1]).
Proof.
  unfold query_pot_interval, bind, get, answer; cbn [fst snd].
  rewrite parse_response_log.
  destruct (parse_response _ []) as [[q|e] l]; reflexivity.
Qed.

(** One turn of the loop for an interval that is not skipped. *)
Lemma loop_body_live (t0 t1 start end_ : datetime) (a : acc) (log : list string) :
  skipped t0 t1 start end_ = false ->
  loop_body requests_get t0 t1 a (start, end_) log
  = (match answer requests_get (clip t0 t1 start end_) with
     | Ok q => Ok (add_query a (clip t0 t1 start end_) q)
     | Raise e => Raise e
     end,
     log ++ [url_of (clip t0 t1 start end_)]).
Proof.
  intros Hs. unfold loop_body. rewrite Hs. unfold clip, bind.
  rewrite query_pot_interval_run.
  destruct (answer requests_get _); reflexivity.
Qed.

(** The loop is the loop over the clipped windows of the pairs it keeps. *)
Lemma for_each_collect (t0 t1 : datetime) (pairs : list (datetime * datetime)) :
  forall (a : acc) (log : list string),
    for_each (loop_body requests_get t0 t1) a pairs log
    = collect requests_get (windows t0 t1 pairs) a log.
Proof.
  induction pairs as [|[start end_] pairs IH]; intros a log; [reflexivity|].
  cbn [for_each]. unfold bind at 1. unfold loop_body at 1.
  unfold windows; cbn [filter]. unfold live at 1; cbn [fst snd].
  destruct (skipped t0 t1 start end_) eqn:Hs; cbn [negb].
  - unfold ret at 1. apply IH.
  - cbn [map collect fst snd]. unfold clip.
    unfold bind at 1. rewrite query_pot_interval_run.
    unfold datetime in *.
    destruct (answer requests_get (Z.max t0 start, Z.min t1 end_)) as [q|e] eqn:Hq.
    + unfold ret at 1. rewrite IH. reflexivity.
    + reflexivity.
Qed.

Lemma collect_ok (ws : list (datetime * datetime)) :
  Forall (answers requests_get) ws ->
  forall (a : acc) (log : list string),
    collect requests_get ws a log
    = (Ok (final_acc requests_get ws a), log ++ map url_of ws).
Proof.
  induction 1 as [|w ws [q Hq] Hws IH]; intros a log; cbn [collect map].
  - unfold ret. now rewrite app_nil_r.
  - rewrite Hq, IH, <- app_assoc. cbn [app final_acc fold_left].
    unfold returned at 2. rewrite Hq. reflexivity.
Qed.

Lemma collect_raise (l1 l2 : list (datetime * datetime)) (w : datetime * datetime)
  (e : exn) :
  Forall (answers requests_get) l1 ->
  answer requests_get w = Raise e ->
  forall (a : acc) (log : list string),
    collect requests_get (l1 ++ w :: l2) a log
    = (Raise e, log ++ map url_of l1 ++ [url_of w]).
Proof.
  intros H1 Hw. induction H1 as [|v l1 [q Hq] Hl1 IH]; intros a log; cbn [collect map app].
  - now rewrite Hw.
  - rewrite Hq, IH, <- app_assoc. reflexivity.
Qed.

(** Either every window answers, or there is a first one that does not. *)
Lemma first_failure (ws : list (datetime * datetime)) :
  Forall (answers requests_get) ws
  \/ exists l1 w l2 e,
       ws = l1 ++ w :: l2 /\ Forall (answers requests_get) l1
       /\ answer requests_get w = Raise e.
Proof.
  induction ws as [|w ws IH]; [left; constructor|].
  destruct (answer requests_get w) as [q|e] eqn:Hw.
  - destruct IH as [IH|(l1 & v & l2 & e & -> & H1 & Hv)].
    + left. constructor; [now exists q|assumption].
    + right. exists (w :: l1), v, l2, e. repeat split; try assumption.
      constructor; [now exists q|assumption].
  - right. exists [], w, ws, e. repeat split; [constructor|assumption].
Qed.

Lemma final_acc_overlap (ws : list (datetime * datetime)) :
  forall a, acc_overlap (final_acc requests_get ws a) = acc_overlap a + total_overlap ws.
Proof.
  induction ws as [|w ws IH]; intros a; cbn [final_acc fold_left total_overlap fold_right].
  - lia.
  - fold (final_acc requests_get ws (add_query a w (returned requests_get w))).
    fold (total_overlap ws). rewrite IH. cbn [add_query acc_overlap]. unfold timedelta, datetime in *. lia.
Qed.

Lemma final_acc_spills (ws : list (datetime * datetime)) :
  forall a, acc_spills (final_acc requests_get ws a)
            = acc_spills a + total_spills requests_get ws.
Proof.
  induction ws as [|w ws IH]; intros a; cbn [final_acc fold_left total_spills fold_right].
  - lia.
  - fold (final_acc requests_get ws (add_query a w (returned requests_get w))).
    fold (total_spills requests_get ws). rewrite IH. cbn [add_query acc_spills]. unfold timedelta, datetime in *. lia.
Qed.

Lemma final_acc_pot (ws : list (datetime * datetime)) :
  forall a, acc_pot (final_acc requests_get ws a)
            = pot_sum (acc_pot a) (pots requests_get ws).
Proof.
  induction ws as [|w ws IH]; intros a; [reflexivity|].
  cbn [final_acc fold_left pots map pot_sum].
  fold (final_acc requests_get ws (add_query a w (returned requests_get w))).
  rewrite IH. reflexivity.
Qed.

(** The three ways a call ends. *)
Lemma get_livetime_interval_ok (t0 t1 : datetime) (starts ends : list datetime)
  (log : list string) :
  let ws := windows t0 t1 (combine starts ends) in
  Forall (answers requests_get) ws ->
  answers requests_get (t0, t1) ->
  float_eqb (total_seconds (t1 - t0)) fzero = false ->
  get_livetime_interval requests_get t0 t1 starts ends log
  = (Ok (report_of requests_get t0 t1 ws),
     log ++ map url_of ws ++ [url_of (t0, t1)]).
Proof.
  intros ws Hws [q Hq] Hd. unfold get_livetime_interval, bind.
  rewrite for_each_collect. fold ws. rewrite (collect_ok ws Hws).
  rewrite query_pot_interval_run. unfold datetime in *. rewrite Hq.
  unfold py_truediv. rewrite Hd. unfold ret, report_of, returned.
  unfold datetime in *. rewrite Hq, <- app_assoc. reflexivity.
Qed.

Lemma get_livetime_interval_zero_division (t0 t1 : datetime)
  (starts ends : list datetime) (log : list string) :
  let ws := windows t0 t1 (combine starts ends) in
  Forall (answers requests_get) ws ->
  answers requests_get (t0, t1) ->
  float_eqb (total_seconds (t1 - t0)) fzero = true ->
  get_livetime_interval requests_get t0 t1 starts ends log
  = (Raise ZeroDivisionError, log ++ map url_of ws ++ [url_of (t0, t1)]).
Proof.
  intros ws Hws [q Hq] Hd. unfold get_livetime_interval, bind.
  rewrite for_each_collect. fold ws. rewrite (collect_ok ws Hws).
  rewrite query_pot_interval_run. unfold datetime in *. rewrite Hq.
  unfold py_truediv. rewrite Hd. unfold raise. rewrite <- app_assoc. reflexivity.
Qed.

Lemma get_livetime_interval_loop_raise (t0 t1 : datetime)
  (starts ends : list datetime) (log : list string) l1 w l2 e :
  windows t0 t1 (combine starts ends) = l1 ++ w :: l2 ->
  Forall (answers requests_get) l1 ->
  answer requests_get w = Raise e ->
  get_livetime_interval requests_get t0 t1 starts ends log
  = (Raise e, log ++ map url_of l1 ++ [url_of w]).
Proof.
  intros Hws H1 Hw. unfold get_livetime_interval, bind.
  rewrite for_each_collect, Hws, (collect_raise l1 l2 w e H1 Hw). reflexivity.
Qed.

Lemma get_livetime_interval_delivered_raise (t0 t1 : datetime)
  (starts ends : list datetime) (log : list string) e :
  let ws := windows t0 t1 (combine starts ends) in
  Forall (answers requests_get) ws ->
  answer requests_get (t0, t1) = Raise e ->
  get_livetime_interval requests_get t0 t1 starts ends log
  = (Raise e, log ++ map url_of ws ++ [url_of (t0, t1)]).
Proof.
  intros ws Hws Hq. unfold get_livetime_interval, bind.
  rewrite for_each_collect. fold ws. rewrite (collect_ok ws Hws).
  rewrite query_pot_interval_run. unfold datetime in *. rewrite Hq.
  rewrite <- app_assoc. reflexivity.
Qed.
(** A call that returns a report went the first of the three ways. *)
Lemma get_livetime_interval_inv (t0 t1 : datetime) (starts ends : list datetime)
  (log log' : list string) (rep : report) :
  get_livetime_interval requests_get t0 t1 starts ends log = (Ok rep, log') ->
  rep = report_of requests_get t0 t1 (windows t0 t1 (combine starts ends))
  /\ float_eqb (total_seconds (t1 - t0)) fzero = false.
Proof.
  intros Hrun.
  destruct (first_failure (windows t0 t1 (combine starts ends)))
    as [Hws|(l1 & w & l2 & e & Hsplit & H1 & Hw)].
  - destruct (answer requests_get (t0, t1)) as [q|e] eqn:Hq.
    + assert (Hq' : answers requests_get (t0, t1)) by now exists q.
      destruct (float_eqb (total_seconds (t1 - t0)) fzero) eqn:Hd.
      * rewrite (get_livetime_interval_zero_division t0 t1 starts ends log Hws Hq' Hd) in Hrun.
        discriminate Hrun.
      * rewrite (get_livetime_interval_ok t0 t1 starts ends log Hws Hq' Hd) in Hrun.
        injection Hrun as <- _. now split.
    + rewrite (get_livetime_interval_delivered_raise t0 t1 starts ends log e Hws Hq) in Hrun.
      discriminate Hrun.
  - rewrite (get_livetime_interval_loop_raise t0 t1 starts ends log l1 w l2 e Hsplit H1 Hw) in Hrun.
    discriminate Hrun.
Qed.
End Run.

(** ** The intersection test and the clipped window *)

Lemma skipped_spec (t0 t1 start end_ : datetime) :
  skipped t0 t1 start end_ = true <-> (start > t1 \/ end_ < t0).
Proof.
  unfold skipped. rewrite orb_true_iff, Z.gtb_gt, Z.ltb_lt. unfold datetime. lia.
Qed.

Lemma skipped_false (t0 t1 start end_ : datetime) :
  skipped t0 t1 start end_ = false <-> (start <= t1 /\ t0 <= end_).
Proof.
  unfold skipped. rewrite orb_false_iff, Z.gtb_ltb, !Z.ltb_ge. tauto.
Qed.

(** C2: for a window [t0 <= t1] and an interval [start <= end_] that passes
    the intersection test, the clipped window [(s0, s1)] satisfies
    [t0 <= s0 <= s1 <= t1], [start <= s0] and [s1 <= end_]. *)
Theorem clip_within_window_and_interval (t0 t1 start end_ : datetime) :
  t0 <= t1 -> start <= end_ -> skipped t0 t1 start end_ = false ->
  let '(s0, s1) := clip t0 t1 start end_ in
  t0 <= s0 /\ s0 <= s1 /\ s1 <= t1 /\ start <= s0 /\ s1 <= end_.
Proof.
  intros Ht Hse Hs. apply skipped_false in Hs. unfold clip. lia.
Qed.

Lemma clip_within_window_and_interval_witness :
  let '(s0, s1) := clip 0 10 3 20 in
  0 <= s0 /\ s0 <= s1 /\ s1 <= 10 /\ 3 <= s0 /\ s1 <= 20.
Proof.
  apply (clip_within_window_and_interval 0 10 3 20); [lia | lia | reflexivity].
Defined.

Lemma combine_app_same_length {A B} (l1 l2 : list A) (m1 m2 : list B) :
  List.length l1 = List.length m1 ->
  combine (l1 ++ l2) (m1 ++ m2) = combine l1 m1 ++ combine l2 m2.
Proof.
  revert m1. induction l1 as [|x l1 IH]; intros [|y m1] Hlen; try discriminate.
  - reflexivity.
  - cbn. f_equal. apply IH. now injection Hlen.
Qed.

Section Skipping.
Context `{F : FloatOps}.
Variable requests_get : string -> Response.

(** C1: the loop skips the interval [(start, end_)] exactly when
    [start > t1] or [end_ < t0].  A skipped interval leaves the accumulators
    and the log as they were, and the whole call is the call without that
    interval; an interval that is not skipped makes exactly one request, for
    its clipped window.  An interval that touches the window at [t1] or at
    [t0] is not skipped. *)
Theorem skipped_exactly_when_outside (t0 t1 start end_ : datetime) :
  (skipped t0 t1 start end_ = true <-> (start > t1 \/ end_ < t0))
  /\ (skipped t0 t1 start end_ = true ->
      (forall a log,
          loop_body requests_get t0 t1 a (start, end_) log = (Ok a, log))
      /\ (forall starts1 ends1 starts2 ends2 log,
             List.length starts1 = List.length ends1 ->
             get_livetime_interval requests_get t0 t1
               (starts1 ++ start :: starts2) (ends1 ++ end_ :: ends2) log
             = get_livetime_interval requests_get t0 t1
                 (starts1 ++ starts2) (ends1 ++ ends2) log))
  /\ (skipped t0 t1 start end_ = false ->
      forall a log,
        loop_body requests_get t0 t1 a (start, end_) log
        = (match answer requests_get (clip t0 t1 start end_) with
           | Ok q => Ok (add_query a (clip t0 t1 start end_) q)
           | Raise e => Raise e
           end,
           log ++ [url_of (clip t0 t1 start end_)]))
  /\ (t0 <= end_ -> skipped t0 t1 t1 end_ = false)
  /\ (start <= t1 -> skipped t0 t1 start t0 = false).
Proof.
  split; [apply skipped_spec|]. split; [|split; [|split]].
  - intros Hs. split.
    + intros a log. unfold loop_body. now rewrite Hs.
    + intros s1 e1 s2 e2 log Hlen. unfold get_livetime_interval, bind.
      rewrite !for_each_collect, !combine_app_same_length by assumption.
      cbn [combine]. unfold windows. rewrite !filter_app. cbn [filter].
      unfold live at 2. cbn [fst snd]. rewrite Hs. reflexivity.
  - intros Hs a log. now apply loop_body_live.
  - intros H. apply skipped_false. unfold datetime in *. lia.
  - intros H. apply skipped_false. unfold datetime in *. lia.
Qed.
End Skipping.

(** ** The exact floats satisfy the facts *)

Lemma Exact_truediv_eq (a b : Z) : (Exact.truediv a b == inject_Z a / inject_Z b)%Q.
Proof. apply Qred_correct. Qed.

Lemma Exact_seconds_le (a b : Z) :
  a <= b -> (inject_Z a / inject_Z 1000000 <= inject_Z b / inject_Z 1000000)%Q.
Proof.
  intros H. apply Qmult_le_compat_r; [now rewrite <- Zle_Qle|].
  apply Qinv_le_0_compat. now rewrite <- (Zle_Qle 0).
Qed.

#[export] Instance ExactFloatLaws : FloatLaws ExactFloat.
Proof.
  split.
  - intros n Hn. reflexivity.
  - reflexivity.
  - intros td. apply Qeq_bool_refl.
  - intros td Htd. change (Qeq_bool (Exact.truediv td 1000000) 0 = false).
    destruct (Qeq_bool (Exact.truediv td 1000000) 0) eqn:E; [|reflexivity].
    apply Qeq_bool_eq in E. rewrite Exact_truediv_eq in E.
    exfalso. apply Htd.
    assert (H : (inject_Z td == 0)%Q).
    { rewrite <- (Qmult_div_r (inject_Z td) (inject_Z 1000000)) by discriminate.
      rewrite E. apply Qmult_0_r. }
    unfold Qeq in H. cbn in H. lia.
  - intros y _ Hy. change (Qeq_bool (Exact.div 0 y) 0 = true).
    apply Qeq_eq_bool. unfold Exact.div.
    rewrite Qred_correct. unfold Qdiv. apply Qmult_0_l.
Qed.

#[export] Instance ExactNumpyLaws : NumpyLaws ExactFloat.
Proof. split. reflexivity. Qed.

#[export] Instance Binary64NumpyLaws : NumpyLaws Binary64Float.
Proof. split. reflexivity. Qed.

#[export] Instance ExactRoundingLaws : RoundingLaws ExactFloat.
Proof.
  split. intros a b [Ha Hab] Hb _.
  change (Qle_bool 0 (Exact.div (Exact.truediv a 1000000) (Exact.truediv b 1000000)) = true
          /\ Qle_bool (Exact.div (Exact.truediv a 1000000) (Exact.truediv b 1000000)) 1 = true).
  unfold Exact.div. rewrite !Qle_bool_iff, !Qred_correct, !Exact_truediv_eq.
  assert (Hpos : (0 < inject_Z b / inject_Z 1000000)%Q).
  { apply Qlt_shift_div_l; [reflexivity|]. rewrite Qmult_0_l.
    now rewrite <- (Zlt_Qlt 0). }
  split.
  - apply Qle_shift_div_l; [assumption|]. rewrite Qmult_0_l.
    apply Qle_shift_div_l; [reflexivity|]. rewrite Qmult_0_l.
    now rewrite <- (Zle_Qle 0).
  - apply Qle_shift_div_r; [assumption|]. rewrite Qmult_1_l.
    now apply Exact_seconds_le.
Qed.

(** ** The doubles satisfy the facts about zero *)

Lemma digits2_pos_bounds (m : positive) :
  2 ^ (Zpos (digits2_pos m) - 1) <= Zpos m < 2 ^ Zpos (digits2_pos m).
Proof.
  induction m as [m IH|m IH|]; cbn [digits2_pos]; [| |cbn; lia].
  - rewrite Pos2Z.inj_succ. replace (Z.succ (Zpos (digits2_pos m)) - 1)
      with (Z.succ (Zpos (digits2_pos m) - 1)) by lia.
    rewrite !Z.pow_succ_r by lia. lia.
  - rewrite Pos2Z.inj_succ. replace (Z.succ (Zpos (digits2_pos m)) - 1)
      with (Z.succ (Zpos (digits2_pos m) - 1)) by lia.
    rewrite !Z.pow_succ_r by lia. lia.
Qed.

Lemma shr_1_m (mrs : shr_record) : 0 <= shr_m mrs -> shr_m (shr_1 mrs) = shr_m mrs / 2.
Proof.
  destruct mrs as [m r s]. cbn [shr_m]. intros Hm.
  destruct m as [|[p|p|]|p]; cbn [shr_1 shr_m]; try reflexivity; try lia;
    (apply Z.div_unique with 1; lia) || (apply Z.div_unique with 0; lia).
Qed.

Lemma iter_shr_1_m (p : positive) :
  forall mrs, 0 <= shr_m mrs ->
    shr_m (iter_pos shr_1 p mrs) = shr_m mrs / 2 ^ Zpos p.
Proof.
  assert (Hpow : forall q, 0 < 2 ^ Zpos q) by (intros; apply Z.pow_pos_nonneg; lia).
  induction p as [p IH|p IH|]; intros mrs Hm; cbn [iter_pos].
  - assert (H1 : 0 <= shr_m (shr_1 mrs))
      by (rewrite shr_1_m by assumption; apply Z.div_pos; lia).
    assert (H2 : 0 <= shr_m (iter_pos shr_1 p (shr_1 mrs)))
      by (rewrite IH by assumption; apply Z.div_pos; [assumption|apply Hpow]).
    rewrite (IH _ H2), (IH _ H1), (shr_1_m _ Hm).
    rewrite !Z.div_div by (pose proof (Hpow p); lia).
    f_equal. rewrite <- Z.pow_add_r, <- (Z.pow_succ_r 2) by lia. f_equal. lia.
  - assert (H1 : 0 <= shr_m (iter_pos shr_1 p mrs))
      by (rewrite IH by assumption; apply Z.div_pos; [assumption|apply Hpow]).
    rewrite (IH _ H1), (IH _ Hm).
    rewrite !Z.div_div by (pose proof (Hpow p); lia).
    f_equal. rewrite <- Z.pow_add_r by lia. f_equal. lia.
  - now apply shr_1_m.
Qed.

Lemma shr_record_of_loc_m (m : Z) (l : location) : shr_m (shr_record_of_loc m l) = m.
Proof. destruct l as [|[| |]]; reflexivity. Qed.

(** A mantissa of at least 53 bits keeps at least 53 bits when it is
    shifted to its exponent. *)
Lemma shr_fexp_large (m e : Z) (l : location) :
  2 ^ 52 <= m -> -1074 <= e ->
  2 ^ 52 <= shr_m (fst (shr_fexp Binary64.prec Binary64.emax m e l))
  /\ -1074 <= snd (shr_fexp Binary64.prec Binary64.emax m e l).
Proof.
  intros Hm He. unfold shr_fexp, shr.
  destruct m as [|m|m]; try (cbn in Hm; lia).
  cbn [Zdigits2]. pose proof (digits2_pos_bounds m) as [Hlo Hhi].
  set (d := Zpos (digits2_pos m)) in *.
  assert (Hd : 53 <= d).
  { destruct (Z_lt_le_dec d 53) as [H|H]; [|assumption]. exfalso.
    assert (2 ^ d <= 2 ^ 52) by (apply Z.pow_le_mono_r; lia). lia. }
  assert (Hfexp : fexp Binary64.prec Binary64.emax (d + e) - e = d - 53).
  { unfold fexp, emin, Binary64.prec, Binary64.emax. lia. }
  rewrite Hfexp. destruct (d - 53) as [|p|p] eqn:Hn; cbn [fst snd].
  - rewrite shr_record_of_loc_m. split; assumption.
  - rewrite iter_shr_1_m, shr_record_of_loc_m by (rewrite shr_record_of_loc_m; lia).
    split; [|lia].
    apply Z.div_le_lower_bound; [apply Z.pow_pos_nonneg; lia|].
    rewrite <- Z.pow_add_r by lia. replace (Zpos p + 52) with (d - 1) by lia.
    assumption.
  - rewrite shr_record_of_loc_m. split; assumption.
Qed.

Lemma round_nearest_even_ge (m : Z) (l : location) : m <= round_nearest_even m l.
Proof. destruct l as [|[| |]]; cbn; try destruct (Z.even m); lia. Qed.

(** Rounding a mantissa of at least 53 bits gives a finite number or an
    infinity, not a zero. *)
Lemma binary_round_aux_large (s : bool) (m e : Z) (l : location) :
  2 ^ 52 <= m -> -1074 <= e ->
  nonzero_number (binary_round_aux Binary64.prec Binary64.emax s m e l).
Proof.
  intros Hm He. unfold binary_round_aux.
  pose proof (shr_fexp_large m e l Hm He) as [H1 H1e].
  destruct (shr_fexp Binary64.prec Binary64.emax m e l) as [mrs1 e1].
  cbn [fst snd] in H1, H1e.
  pose proof (round_nearest_even_ge (shr_m mrs1) (loc_of_shr_record mrs1)) as Hr.
  pose proof (shr_fexp_large (round_nearest_even (shr_m mrs1) (loc_of_shr_record mrs1))
                e1 loc_Exact ltac:(lia) H1e) as [H2 _].
  destruct (shr_fexp Binary64.prec Binary64.emax _ e1 loc_Exact) as [mrs2 e2].
  cbn [fst] in H2.
  destruct (shr_m mrs2) as [|m2|m2]; try lia.
  destruct (e2 <=? Binary64.emax - Binary64.prec); exact I.
Qed.

(** A nonzero number of microseconds is a nonzero number of seconds. *)
Lemma truediv_million_nonzero (a : Z) :
  a <> 0 -> nonzero_number (Binary64.truediv a 1000000).
Proof.
  intros Ha. unfold Binary64.truediv.
  destruct (Z.abs a) as [|m|m] eqn:Habs; try lia. cbn [Z.abs].
  unfold SFdiv, SFdiv_core_binary.
  cbn [Zdigits2]. pose proof (digits2_pos_bounds m) as [Hlo Hhi].
  set (d := Zpos (digits2_pos m)) in *.
  change (Zpos (digits2_pos 1000000)) with 20.
  assert (Hfexp : fexp Binary64.prec Binary64.emax (d + 0 - (20 + 0)) = d - 73).
  { unfold fexp, emin, Binary64.prec, Binary64.emax. lia. }
  rewrite Hfexp. replace (0 - 0) with 0 by reflexivity.
  set (e := Z.min (d - 73) 0).
  set (m' := match 0 - e with
             | 0 => Zpos m
             | Zpos _ => Z.shiftl (Zpos m) (0 - e)
             | Zneg _ => 0
             end).
  assert (Hm' : 2 ^ 72 <= m').
  { unfold m', e. destruct (Z_le_gt_dec (d - 73) 0) as [H|H].
    - rewrite Z.min_l by assumption.
      destruct (0 - (d - 73)) as [|p|p] eqn:Hs; try lia.
      + replace 72 with (d - 1) by lia. assumption.
      + rewrite Z.shiftl_mul_pow2 by lia.
        replace 72 with ((d - 1) + Zpos p) by lia. rewrite Z.pow_add_r by lia.
        apply Z.mul_le_mono_nonneg_r; [apply Z.pow_nonneg; lia|assumption].
    - rewrite Z.min_r by lia. cbn.
      assert (2 ^ 72 <= 2 ^ (d - 1)) by (apply Z.pow_le_mono_r; lia). lia. }
  pose proof (Z_div_mod m' 1000000 ltac:(lia)) as Hdm.
  destruct (Z.div_eucl m' 1000000) as [q r] eqn:Hqr.
  apply binary_round_aux_large.
  - change (2 ^ 72) with (2 ^ 52 * 1048576) in Hm'. lia.
  - unfold e. lia.
Qed.

#[export] Instance Binary64FloatLaws : FloatLaws Binary64Float.
Proof.
  split.
  - intros n Hn. change (Binary64.truediv 0 n = S754_zero false).
    unfold Binary64.truediv. destruct n; try lia. reflexivity.
  - reflexivity.
  - intros td.
    change (SFeqb (Binary64.truediv td 1000000) (Binary64.truediv td 1000000) = true).
    destruct (Z.eq_dec td 0) as [->|H]; [reflexivity|].
    pose proof (truediv_million_nonzero td H) as Hn.
    destruct (Binary64.truediv td 1000000) as [s|s| |s m e]; try contradiction.
    + now destruct s.
    + unfold SFeqb, SFcompare.
      destruct s; now rewrite Z.compare_refl, Pos.compare_cont_refl.
  - intros td H.
    change (SFeqb (Binary64.truediv td 1000000) (S754_zero false) = false).
    pose proof (truediv_million_nonzero td H) as Hn.
    destruct (Binary64.truediv td 1000000) as [s|s| |s m e]; try contradiction;
      now destruct s.
  - intros y Hy Hy0.
    change (SFeqb y y = true) in Hy. change (SFeqb y (S754_zero false) = false) in Hy0.
    change (SFeqb (SFdiv Binary64.prec Binary64.emax (S754_zero false) y)
              (S754_zero false) = true).
    destruct y as [s|s| |s m e]; try discriminate; reflexivity.
Qed.

(** ** The doubles satisfy the fact about rounding *)

Lemma shr_1_encodes (mrs : shr_record) (r c : Z) :
  0 <= shr_m mrs -> 0 <= r < c -> encodes mrs r c ->
  exists r',
    encodes (shr_1 mrs) r' (2 * c)
    /\ shr_m mrs * c + r = shr_m (shr_1 mrs) * (2 * c) + r'
    /\ 0 <= r' < 2 * c.
Proof.
  destruct mrs as [m rb sb]. unfold encodes. cbn [shr_m shr_r shr_s].
  intros Hm Hr He.
  destruct m as [|[p|p|]|p]; try lia.
  - exists r. destruct rb, sb; cbn [shr_1 shr_m shr_r shr_s orb]; lia.
  - exists (c + r). destruct rb, sb; cbn [shr_1 shr_m shr_r shr_s orb]; lia.
  - exists r. destruct rb, sb; cbn [shr_1 shr_m shr_r shr_s orb]; lia.
  - exists (c + r). destruct rb, sb; cbn [shr_1 shr_m shr_r shr_s orb]; lia.
Qed.

Lemma pow2_xO (p : positive) : 2 ^ Zpos p~0 = 2 ^ Zpos p * 2 ^ Zpos p.
Proof. rewrite <- Z.pow_add_r by lia. f_equal. lia. Qed.

Lemma pow2_xI (p : positive) : 2 ^ Zpos p~1 = 2 * (2 ^ Zpos p * 2 ^ Zpos p).
Proof.
  rewrite <- Z.pow_add_r, <- (Z.pow_succ_r 2) by lia. f_equal. lia.
Qed.

Lemma iter_shr_1_encodes (p : positive) :
  forall (mrs : shr_record) (r c : Z),
    0 <= shr_m mrs -> 0 <= r < c -> encodes mrs r c ->
    exists r',
      encodes (iter_pos shr_1 p mrs) r' (c * 2 ^ Zpos p)
      /\ shr_m mrs * c + r = shr_m (iter_pos shr_1 p mrs) * (c * 2 ^ Zpos p) + r'
      /\ 0 <= r' < c * 2 ^ Zpos p.
Proof.
  assert (Hnn : forall q mrs, 0 <= shr_m mrs -> 0 <= shr_m (iter_pos shr_1 q mrs)).
  { intros q mrs H. rewrite iter_shr_1_m by assumption.
    apply Z.div_pos; [assumption|apply Z.pow_pos_nonneg; lia]. }
  assert (Hnn1 : forall mrs, 0 <= shr_m mrs -> 0 <= shr_m (shr_1 mrs)).
  { intros mrs H. rewrite shr_1_m by assumption. apply Z.div_pos; lia. }
  induction p as [p IH|p IH|]; intros mrs r c Hm Hr He; cbn [iter_pos].
  - destruct (shr_1_encodes mrs r c Hm Hr He) as (r1 & He1 & Hv1 & Hr1).
    destruct (IH _ r1 (2 * c) (Hnn1 _ Hm) Hr1 He1) as (r2 & He2 & Hv2 & Hr2).
    destruct (IH _ r2 (2 * c * 2 ^ Zpos p) (Hnn _ _ (Hnn1 _ Hm)) Hr2 He2)
      as (r3 & He3 & Hv3 & Hr3).
    assert (Hc : 2 * c * 2 ^ Zpos p * 2 ^ Zpos p = c * 2 ^ Zpos p~1)
      by (rewrite pow2_xI; ring).
    rewrite Hc in *. exists r3. repeat split; try assumption; lia.
  - destruct (IH _ r c Hm Hr He) as (r1 & He1 & Hv1 & Hr1).
    destruct (IH _ r1 (c * 2 ^ Zpos p) (Hnn _ _ Hm) Hr1 He1)
      as (r2 & He2 & Hv2 & Hr2).
    assert (Hc : c * 2 ^ Zpos p * 2 ^ Zpos p = c * 2 ^ Zpos p~0)
      by (rewrite pow2_xO; ring).
    rewrite Hc in *. exists r2. repeat split; try assumption; lia.
  - destruct (shr_1_encodes mrs r c Hm Hr He) as (r1 & He1 & Hv1 & Hr1).
    exists r1. change (2 ^ 1) with 2. rewrite (Z.mul_comm c 2).
    repeat split; try assumption; lia.
Qed.

Lemma new_location_encodes (m r c : Z) :
  0 <= r < c ->
  encodes (shr_record_of_loc m (new_location c r)) r c.
Proof.
  intros Hr. unfold new_location, new_location_even, new_location_odd.
  destruct (Z.even c) eqn:Hc.
  - destruct (Z.eqb_spec r 0) as [->|Hr0]; [reflexivity|].
    destruct (Z.compare_spec (2 * r) c); unfold encodes;
      cbn [shr_record_of_loc shr_r shr_s]; lia.
  - destruct (Z.eqb_spec r 0) as [->|Hr0]; [reflexivity|].
    assert (Hodd : c <> 2 * r).
    { intros ->. rewrite Z.even_mul in Hc. discriminate Hc. }
    destruct (Z.compare_spec (2 * r + 1) c); unfold encodes;
      cbn [shr_record_of_loc shr_r shr_s]; lia.
Qed.

Lemma exact_encodes (m c : Z) : encodes (shr_record_of_loc m loc_Exact) 0 c.
Proof. reflexivity. Qed.

(** Rounding to nearest: the result is within half a unit of the value. *)
Lemma round_nearest_even_encodes (mrs : shr_record) (r c : Z) :
  0 <= r < c -> encodes mrs r c ->
  let m' := round_nearest_even (shr_m mrs) (loc_of_shr_record mrs) in
  shr_m mrs <= m' <= shr_m mrs + 1
  /\ (2 * m' - 1) * c <= 2 * (shr_m mrs * c + r) <= (2 * m' + 1) * c.
Proof.
  destruct mrs as [m rb sb]. unfold encodes. cbn [shr_m shr_r shr_s].
  intros Hr He. destruct rb, sb; cbn [loc_of_shr_record round_nearest_even];
    try destruct (Z.even m); nia.
Qed.

Lemma Zdigits2_unique (m d : Z) :
  2 ^ (d - 1) <= m < 2 ^ d -> 0 < d -> Zdigits2 m = d.
Proof.
  intros [Hlo Hhi] Hd.
  assert (Hm : 0 < m) by (pose proof (Z.pow_pos_nonneg 2 (d - 1)); lia).
  destruct m as [|m|m]; try lia. cbn [Zdigits2].
  pose proof (digits2_pos_bounds m) as [Hlo' Hhi'].
  set (d' := Zpos (digits2_pos m)) in *.
  destruct (Z.lt_trichotomy d' d) as [H|[H|H]]; [|assumption|]; exfalso.
  - assert (2 ^ d' <= 2 ^ (d - 1)) by (apply Z.pow_le_mono_r; lia). lia.
  - assert (2 ^ d <= 2 ^ (d' - 1)) by (apply Z.pow_le_mono_r; lia). lia.
Qed.

(** Shifting a mantissa of [d >= 53] digits to its exponent leaves 53
    digits and keeps the value. *)
Lemma shr_fexp_spec (m e r c : Z) (mrs0 : shr_record) :
  2 ^ 52 <= m -> -1074 <= e -> 0 <= r < c ->
  shr_m mrs0 = m -> encodes mrs0 r c ->
  let d := Zdigits2 m in
  let k := d - 53 in
  let res := shr mrs0 e (fexp Binary64.prec Binary64.emax (d + e) - e) in
  exists r',
    snd res = e + k /\ 0 <= k
    /\ 2 ^ 52 <= shr_m (fst res) < 2 ^ 53
    /\ encodes (fst res) r' (c * 2 ^ k)
    /\ m * c + r = shr_m (fst res) * (c * 2 ^ k) + r'
    /\ 0 <= r' < c * 2 ^ k.
Proof.
  intros Hm He Hr Hm0 Henc d k res.
  destruct m as [|m|m]; try (cbn in Hm; lia).
  pose proof (digits2_pos_bounds m) as [Hlo Hhi].
  change (Zpos (digits2_pos m)) with d in Hlo, Hhi.
  assert (Hd : 53 <= d).
  { destruct (Z_lt_le_dec d 53) as [H|H]; [|assumption]. exfalso.
    assert (2 ^ d <= 2 ^ 52) by (apply Z.pow_le_mono_r; lia). lia. }
  assert (Hfexp : fexp Binary64.prec Binary64.emax (d + e) - e = k).
  { unfold fexp, emin, Binary64.prec, Binary64.emax, k. lia. }
  unfold res. rewrite Hfexp. unfold shr.
  destruct k as [|p|p] eqn:Hk; try lia.
  - exists r. cbn [fst snd]. rewrite Hm0. change (2 ^ 0) with 1.
    rewrite Z.mul_1_r. replace d with 53 in * by lia.
    repeat split; try assumption; try lia.
  - cbn [fst snd].
    destruct (iter_shr_1_encodes p mrs0 r c ltac:(lia) Hr Henc) as (r' & He' & Hv & Hr').
    exists r'. rewrite Hm0 in Hv.
    assert (Hshift : shr_m (iter_pos shr_1 p mrs0) = Zpos m / 2 ^ Zpos p)
      by (rewrite iter_shr_1_m, Hm0 by lia; reflexivity).
    assert (Hpow : 0 < 2 ^ Zpos p) by (apply Z.pow_pos_nonneg; lia).
    repeat split; try assumption; try lia.
    + rewrite Hshift. apply Z.div_le_lower_bound; [assumption|].
      rewrite <- Z.pow_add_r by lia. replace (Zpos p + 52) with (d - 1) by lia.
      assumption.
    + rewrite Hshift. apply Z.div_lt_upper_bound; [assumption|].
      rewrite <- Z.pow_add_r by lia. replace (Zpos p + 53) with d by lia.
      assumption.
Qed.

Lemma quotient_unique (a b c r : Z) :
  0 < c -> a * c = b * c + r -> 0 <= r < c -> r = 0 /\ b = a.
Proof.
  intros Hc Heq Hr.
  assert (H : b = a).
  { apply (Z.div_unique_pos (a * c) c b r) in Hr; [|lia].
    rewrite Z.div_mul in Hr by lia. congruence. }
  subst b. lia.
Qed.

(** What [binary_round_aux] returns for a mantissa [m] of at least 53
    bits followed by the fraction [r / c]: a mantissa [m3] of 53 bits and an
    exponent [e3] with the value [m + r / c] (in units of [2 ^ e]) within
    half a unit of [m3] (in units of [2 ^ e3]), and no further below than a
    quarter when [m3] is the least mantissa. *)
Lemma binary_round_aux_spec (s : bool) (m e r c : Z) :
  2 ^ 52 <= m -> -1074 <= e -> 0 <= r < c ->
  exists (m3 : positive) (e3 : Z),
    binary_round_aux Binary64.prec Binary64.emax s m e (new_location c r)
    = (if e3 <=? 971 then S754_finite s m3 e3 else S754_infinity s)
    /\ 2 ^ 52 <= Zpos m3 < 2 ^ 53
    /\ (e3 = e + Zdigits2 m - 53 \/ (e3 = e + Zdigits2 m - 52 /\ Zpos m3 = 2 ^ 52))
    /\ 2 * (m * c + r) <= (2 * Zpos m3 + 1) * (c * 2 ^ (e3 - e))
    /\ (2 ^ 54 - 1) * (c * 2 ^ (e3 - e)) <= 4 * (m * c + r)
    /\ (2 ^ 52 < Zpos m3 ->
        (2 * Zpos m3 - 1) * (c * 2 ^ (e3 - e)) <= 2 * (m * c + r)).
Proof.
  intros Hm He Hr. unfold binary_round_aux, shr_fexp.
  destruct (shr_fexp_spec m e r c (shr_record_of_loc m (new_location c r))
              Hm He Hr (shr_record_of_loc_m _ _) (new_location_encodes m r c Hr))
    as (r1 & He1 & Hk1 & Hm1 & Henc1 & Hv1 & Hr1).
  set (k1 := Zdigits2 m - 53) in *.
  destruct (shr (shr_record_of_loc m (new_location c r)) e
              (fexp Binary64.prec Binary64.emax (Zdigits2 m + e) - e)) as [mrs1 e1].
  cbn [fst snd] in He1, Hm1, Henc1, Hv1.
  assert (Hc1 : 0 < c * 2 ^ k1)
    by (apply Z.mul_pos_pos; [lia|apply Z.pow_pos_nonneg; lia]).
  set (c1 := c * 2 ^ k1) in *.
  pose proof (round_nearest_even_encodes mrs1 r1 c1 Hr1 Henc1) as [Hm2 Hv2].
  set (m1 := shr_m mrs1) in *.
  set (m2 := round_nearest_even m1 (loc_of_shr_record mrs1)) in *.
  assert (Hm1c : 2 ^ 52 * c1 <= m1 * c1)
    by (apply Z.mul_le_mono_nonneg_r; lia).
  destruct (shr_fexp_spec m2 e1 0 c1 (shr_record_of_loc m2 loc_Exact)
              ltac:(lia) ltac:(lia) ltac:(lia) (shr_record_of_loc_m _ _)
              (exact_encodes m2 c1))
    as (r3 & He3 & Hk3 & Hm3 & _ & Hv3 & Hr3).
  assert (Hd2 : (m2 < 2 ^ 53 /\ Zdigits2 m2 = 53) \/ (m2 = 2 ^ 53 /\ Zdigits2 m2 = 54)).
  { destruct (Z_lt_le_dec m2 (2 ^ 53)) as [H|H].
    - left. split; [assumption|]. apply Zdigits2_unique; [split|]; lia.
    - right. assert (Heq : m2 = 2 ^ 53) by lia. rewrite Heq. now split. }
  destruct (shr (shr_record_of_loc m2 loc_Exact) e1
              (fexp Binary64.prec Binary64.emax (Zdigits2 m2 + e1) - e1)) as [mrs3 e3].
  cbn [fst snd] in He3, Hm3, Hv3.
  destruct (shr_m mrs3) as [|m3|m3] eqn:Hm3eq; try lia.
  exists m3, e3. change (Binary64.emax - Binary64.prec) with 971.
  split; [reflexivity|]. split; [assumption|].
  clear Hm3eq. generalize dependent (Zpos m3). clear m3. intros z3 Hm3 Hv3.
  destruct Hd2 as [[Hlt Hd2]|[Heq Hd2]]; rewrite Hd2 in *.
  - change (53 - 53) with 0 in *. change (2 ^ 0) with 1 in *.
    rewrite Z.mul_1_r, Z.add_0_r in *.
    destruct (quotient_unique m2 z3 c1 r3 Hc1 Hv3 Hr3) as [-> ->].
    replace (e3 - e) with k1 by lia. fold c1.
    split; [left; unfold k1 in *; lia|]. repeat split; lia.
  - change (54 - 53) with 1 in *. change (2 ^ 1) with 2 in *.
    rewrite Z.add_0_r in Hv3.
    assert (Hv3' : 2 ^ 52 * (c1 * 2) = z3 * (c1 * 2) + r3).
    { rewrite <- Hv3, Heq. change (2 ^ 53) with (2 ^ 52 * 2). ring. }
    destruct (quotient_unique (2 ^ 52) z3 (c1 * 2) r3 ltac:(lia) Hv3' Hr3) as [-> ->].
    replace (e3 - e) with (k1 + 1) by lia.
    rewrite Z.pow_add_r by lia. change (2 ^ 1) with 2.
    replace (c * (2 ^ k1 * 2)) with (2 * c1) by (unfold c1; ring).
    rewrite Heq in Hv2.
    split; [right; unfold k1 in *; lia|]. repeat split; lia.
Qed.

(** The seconds of [n] microseconds, [0 < n] up to the timedelta range: a
    double of 53 bits, with [n / 10^6] within half a unit in the last place
    of it.  The inequalities are scaled by [2 ^ 80]. *)
Lemma truediv_million_spec (n : positive) :
  Zpos n <= 86399999999999999999999 ->
  exists (m3 : positive) (e3 : Z),
    Binary64.truediv (Zpos n) 1000000 = S754_finite false m3 e3
    /\ 2 ^ 52 <= Zpos m3 < 2 ^ 53
    /\ -72 <= e3 <= 6
    /\ 2 * (Zpos n * 2 ^ 80) <= (2 * Zpos m3 + 1) * (1000000 * 2 ^ (e3 + 80))
    /\ (2 ^ 54 - 1) * (1000000 * 2 ^ (e3 + 80)) <= 4 * (Zpos n * 2 ^ 80)
    /\ (2 ^ 52 < Zpos m3 ->
        (2 * Zpos m3 - 1) * (1000000 * 2 ^ (e3 + 80)) <= 2 * (Zpos n * 2 ^ 80)).
Proof.
  intros Hn. unfold Binary64.truediv. cbn [Z.abs Z.ltb Z.compare xorb].
  unfold SFdiv, SFdiv_core_binary.
  cbn [Zdigits2]. pose proof (digits2_pos_bounds n) as [Hlo Hhi].
  set (d := Zpos (digits2_pos n)) in *.
  change (Zpos (digits2_pos 1000000)) with 20.
  assert (Hd1 : 1 <= d) by (unfold d; lia).
  assert (Hd77 : d <= 77).
  { destruct (Z_le_gt_dec d 77) as [H|H]; [assumption|]. exfalso.
    assert (2 ^ 77 <= 2 ^ (d - 1)) by (apply Z.pow_le_mono_r; lia).
    change (2 ^ 77) with 151115727451828646838272 in *. lia. }
  assert (Hfexp : fexp Binary64.prec Binary64.emax (d + 0 - (20 + 0)) = d - 73).
  { unfold fexp, emin, Binary64.prec, Binary64.emax. lia. }
  rewrite Hfexp. replace (0 - 0) with 0 by reflexivity.
  set (e := Z.min (d - 73) 0).
  assert (He : -72 <= e <= 0) by (unfold e; lia).
  set (m' := match 0 - e with
             | 0 => Zpos n
             | Zpos _ => Z.shiftl (Zpos n) (0 - e)
             | Zneg _ => 0
             end).
  assert (Hm'eq : m' = Zpos n * 2 ^ (- e)).
  { unfold m'. replace (0 - e) with (- e) by lia.
    destruct (- e) as [|p|p] eqn:Hs; try lia.
    now rewrite Z.shiftl_mul_pow2 by lia. }
  assert (Hm'lo : 2 ^ 72 <= m').
  { rewrite Hm'eq. unfold e. destruct (Z_le_gt_dec (d - 73) 0) as [H|H].
    - rewrite Z.min_l by assumption.
      replace 72 with ((d - 1) + - (d - 73)) by lia. rewrite Z.pow_add_r by lia.
      apply Z.mul_le_mono_nonneg_r; [apply Z.pow_nonneg; lia|assumption].
    - rewrite Z.min_r by lia. change (2 ^ (- 0)) with 1.
      assert (2 ^ 72 <= 2 ^ (d - 1)) by (apply Z.pow_le_mono_r; lia). lia. }
  assert (Hm'hi : m' < 2 ^ 77).
  { rewrite Hm'eq. unfold e. destruct (Z_le_gt_dec (d - 73) 0) as [H|H].
    - rewrite Z.min_l by assumption.
      assert (Zpos n * 2 ^ (- (d - 73)) < 2 ^ d * 2 ^ (- (d - 73))).
      { apply Z.mul_lt_mono_pos_r; [apply Z.pow_pos_nonneg; lia|assumption]. }
      rewrite <- Z.pow_add_r in H0 by lia. replace (d + - (d - 73)) with 73 in H0 by lia.
      change (2 ^ 73) with 9444732965739290427392 in H0.
      change (2 ^ 77) with 151115727451828646838272. lia.
    - rewrite Z.min_r by lia. change (2 ^ (- 0)) with 1.
      change (2 ^ 77) with 151115727451828646838272. lia. }
  pose proof (Z_div_mod m' 1000000 ltac:(lia)) as Hdm.
  destruct (Z.div_eucl m' 1000000) as [q r] eqn:Hqr. destruct Hdm as [Hdm Hr].
  assert (Hq : 2 ^ 52 <= q).
  { change (2 ^ 72) with (2 ^ 52 * 1048576) in Hm'lo. lia. }
  assert (Hqhi : q < 2 ^ 58).
  { change (2 ^ 77) with (2 ^ 58 * 524288) in Hm'hi. lia. }
  destruct (binary_round_aux_spec false q e r 1000000 Hq ltac:(lia) Hr)
    as (m3 & e3 & Hres & Hm3 & He3 & Hub & Hlb1 & Hlb2).
  assert (Hdq : 53 <= Zdigits2 q <= 58).
  { destruct q as [|q|q]; try lia. cbn [Zdigits2].
    pose proof (digits2_pos_bounds q) as [Hqlo Hqhi'].
    set (dq := Zpos (digits2_pos q)) in *. split.
    - destruct (Z_lt_le_dec dq 53) as [H|H]; [|assumption]. exfalso.
      assert (2 ^ dq <= 2 ^ 52) by (apply Z.pow_le_mono_r; lia). lia.
    - destruct (Z_le_gt_dec dq 58) as [H|H]; [assumption|]. exfalso.
      assert (2 ^ 58 <= 2 ^ (dq - 1)) by (apply Z.pow_le_mono_r; lia). lia. }
  assert (He3r : e <= e3 <= 6) by (destruct He3 as [->|[-> _]]; lia).
  exists m3, e3. cbn [xorb]. rewrite Hres.
  replace (e3 <=? 971) with true by (symmetry; apply Z.leb_le; lia).
  split; [reflexivity|]. split; [assumption|]. split; [lia|].
  assert (Hval : q * 1000000 + r = Zpos n * 2 ^ (- e)) by lia.
  rewrite Hval in Hub, Hlb1, Hlb2.
  set (B := 2 ^ (80 + e)).
  assert (HB : 0 < B) by (apply Z.pow_pos_nonneg; lia).
  assert (HA : 2 ^ (- e) * B = 2 ^ 80).
  { unfold B. rewrite <- Z.pow_add_r by lia. f_equal. lia. }
  assert (HC : 2 ^ (e3 - e) * B = 2 ^ (e3 + 80)).
  { unfold B. rewrite <- Z.pow_add_r by lia. f_equal. lia. }
  set (X := 2 ^ (- e)) in *. set (Y := 2 ^ (e3 - e)) in *.
  set (P := 2 ^ (e3 + 80)) in *. set (S := 2 ^ 80) in *.
  assert (Hub' : 2 * (Zpos n * X) * B <= (2 * Zpos m3 + 1) * (1000000 * Y) * B)
    by (apply Z.mul_le_mono_nonneg_r; lia).
  assert (Hlb1' : (2 ^ 54 - 1) * (1000000 * Y) * B <= 4 * (Zpos n * X) * B)
    by (apply Z.mul_le_mono_nonneg_r; lia).
  replace (2 * (Zpos n * X) * B) with (2 * (Zpos n * (X * B))) in Hub' by ring.
  replace ((2 * Zpos m3 + 1) * (1000000 * Y) * B)
    with ((2 * Zpos m3 + 1) * (1000000 * (Y * B))) in Hub' by ring.
  replace ((2 ^ 54 - 1) * (1000000 * Y) * B)
    with ((2 ^ 54 - 1) * (1000000 * (Y * B))) in Hlb1' by ring.
  replace (4 * (Zpos n * X) * B) with (4 * (Zpos n * (X * B))) in Hlb1' by ring.
  rewrite HA, HC in Hub', Hlb1'.
  split; [exact Hub'|]. split; [exact Hlb1'|].
  intros Hbig. specialize (Hlb2 Hbig).
  assert (Hlb2' : (2 * Zpos m3 - 1) * (1000000 * Y) * B <= 2 * (Zpos n * X) * B)
    by (apply Z.mul_le_mono_nonneg_r; lia).
  replace ((2 * Zpos m3 - 1) * (1000000 * Y) * B)
    with ((2 * Zpos m3 - 1) * (1000000 * (Y * B))) in Hlb2' by ring.
  replace (2 * (Zpos n * X) * B) with (2 * (Zpos n * (X * B))) in Hlb2' by ring.
  rewrite HA, HC in Hlb2'. exact Hlb2'.
Qed.

(** The order of two positive doubles of 53 bits. *)
Lemma SFleb_finite (m1 m2 : positive) (e1 e2 : Z) :
  SFleb (S754_finite false m1 e1) (S754_finite false m2 e2) = true
  <-> e1 < e2 \/ (e1 = e2 /\ Zpos m1 <= Zpos m2).
Proof.
  unfold SFleb, SFcompare. destruct (Z.compare_spec e1 e2) as [->|H|H].
  - rewrite Pos.compare_cont_spec. cbn [Pos.switch_Eq].
    destruct (Pos.compare_spec m1 m2) as [->|Hm|Hm]; split; intros H;
      try discriminate; try lia; try reflexivity.
  - split; [intros _; lia|reflexivity].
  - split; [discriminate|lia].
Qed.

(** Rounding keeps the order of the durations. *)
Lemma truediv_million_mono (a b : positive) :
  Zpos a <= Zpos b -> Zpos b <= 86399999999999999999999 ->
  SFleb (Binary64.truediv (Zpos a) 1000000) (Binary64.truediv (Zpos b) 1000000) = true.
Proof.
  intros Hab Hb.
  destruct (Pos.eq_dec a b) as [->|Hne].
  { destruct (truediv_million_spec b Hb) as (m & e & -> & _).
    apply SFleb_finite. lia. }
  assert (Hlt : Zpos a < Zpos b) by lia.
  destruct (truediv_million_spec a ltac:(lia))
    as (ma & ea & -> & Hma & Hea & Huba & Hlb1a & Hlb2a).
  destruct (truediv_million_spec b Hb)
    as (mb & eb & -> & Hmb & Heb & Hubb & Hlb1b & Hlb2b).
  apply SFleb_finite.
  set (S := 2 ^ 80) in *.
  assert (HS : 0 < S) by (apply Z.pow_pos_nonneg; lia).
  assert (HabS : Zpos a * S < Zpos b * S) by (apply Z.mul_lt_mono_pos_r; assumption).
  set (Ka := 1000000 * 2 ^ (ea + 80)) in *.
  set (Kb := 1000000 * 2 ^ (eb + 80)) in *.
  assert (HKb : 0 < Kb)
    by (apply Z.mul_pos_pos; [lia|apply Z.pow_pos_nonneg; lia]).
  destruct (Z.lt_trichotomy ea eb) as [H|[H|H]]; [left; assumption| |].
  - right. split; [assumption|].
    assert (HK : Ka = Kb) by (unfold Ka, Kb; now rewrite H).
    rewrite HK in *.
    destruct (Z_le_gt_dec (Zpos ma) (Zpos mb)) as [Hle|Hgt]; [assumption|exfalso].
    specialize (Hlb2a ltac:(lia)).
    assert (Hmul : (2 * Zpos mb + 1) * Kb <= (2 * Zpos ma - 1) * Kb)
      by (apply Z.mul_le_mono_nonneg_r; lia).
    lia.
  - exfalso.
    assert (HK : 2 * Kb <= Ka).
    { unfold Ka, Kb. replace (ea + 80) with ((ea - eb - 1) + (1 + (eb + 80))) by lia.
      rewrite (Z.pow_add_r 2 (ea - eb - 1)), (Z.pow_add_r 2 1) by lia.
      change (2 ^ 1) with 2.
      assert (H1 : 1 <= 2 ^ (ea - eb - 1))
        by (pose proof (Z.pow_pos_nonneg 2 (ea - eb - 1)); lia).
      assert (H2 : 0 < 2 ^ (eb + 80)) by (apply Z.pow_pos_nonneg; lia).
      assert (H3 : 1 * (2 * 2 ^ (eb + 80)) <= 2 ^ (ea - eb - 1) * (2 * 2 ^ (eb + 80)))
        by (apply Z.mul_le_mono_nonneg_r; lia).
      lia. }
    assert (Hmul : (2 * Zpos mb + 1) * Kb <= (2 ^ 54 - 1) * Kb)
      by (apply Z.mul_le_mono_nonneg_r; lia).
    lia.
Qed.

(** The quotient of two positive doubles of 53 bits [x <= y] is at most
    [1.0]. *)
Lemma SFdiv_le_one (mx my : positive) (ex ey : Z) :
  2 ^ 52 <= Zpos mx < 2 ^ 53 -> 2 ^ 52 <= Zpos my < 2 ^ 53 ->
  -72 <= ex <= 6 -> -72 <= ey <= 6 ->
  ex < ey \/ (ex = ey /\ Zpos mx <= Zpos my) ->
  exists m3 e3,
    SFdiv Binary64.prec Binary64.emax (S754_finite false mx ex) (S754_finite false my ey)
    = S754_finite false m3 e3
    /\ (e3 < -52 \/ (e3 = -52 /\ Zpos m3 <= 2 ^ 52)).
Proof.
  intros Hmx Hmy Hex Hey Hle. unfold SFdiv, SFdiv_core_binary.
  rewrite (Zdigits2_unique (Zpos mx) 53), (Zdigits2_unique (Zpos my) 53)
    by (try split; try lia; change (2 ^ (53 - 1)) with (2 ^ 52); lia).
  assert (Hfexp : fexp Binary64.prec Binary64.emax (53 + ex - (53 + ey)) = ex - ey - 53).
  { unfold fexp, emin, Binary64.prec, Binary64.emax. lia. }
  rewrite Hfexp, Z.min_l by lia.
  replace (ex - ey - (ex - ey - 53)) with 53 by lia.
  cbv beta iota. rewrite Z.shiftl_mul_pow2 by lia.
  set (m' := Zpos mx * 2 ^ 53).
  pose proof (Z_div_mod m' (Zpos my) ltac:(lia)) as Hdm.
  destruct (Z.div_eucl m' (Zpos my)) as [q r] eqn:Hqr. destruct Hdm as [Hdm Hr].
  assert (Hq : 2 ^ 52 <= q < 2 ^ 54).
  { assert (q = m' / Zpos my) as ->.
    { apply Z.div_unique_pos with r; [lia|]. rewrite Hdm. ring. }
    unfold m'. split.
    - apply Z.div_le_lower_bound; [lia|].
      change (2 ^ 53) with (2 * 2 ^ 52) in *. nia.
    - apply Z.div_lt_upper_bound; [lia|].
      change (2 ^ 54) with (4 * 2 ^ 52) in *. change (2 ^ 53) with (2 * 2 ^ 52) in *. nia. }
  destruct (binary_round_aux_spec false q (ex - ey - 53) r (Zpos my)
              ltac:(lia) ltac:(lia) Hr)
    as (m3 & e3 & Hres & Hm3 & He3 & _ & Hlb1 & Hlb2).
  assert (Hdq : 53 <= Zdigits2 q <= 54).
  { destruct q as [|q|q]; try lia. cbn [Zdigits2].
    pose proof (digits2_pos_bounds q) as [Hqlo Hqhi'].
    set (dq := Zpos (digits2_pos q)) in *. split.
    - destruct (Z_lt_le_dec dq 53) as [H|H]; [|assumption]. exfalso.
      assert (2 ^ dq <= 2 ^ 52) by (apply Z.pow_le_mono_r; lia). lia.
    - destruct (Z_le_gt_dec dq 54) as [H|H]; [assumption|]. exfalso.
      assert (2 ^ 54 <= 2 ^ (dq - 1)) by (apply Z.pow_le_mono_r; lia). lia. }
  exists m3, e3. cbn [xorb]. rewrite Hres.
  replace (e3 <=? 971) with true
    by (symmetry; apply Z.leb_le; destruct He3 as [->|[-> _]]; lia).
  split; [reflexivity|].
  assert (Hval : q * Zpos my + r = Zpos mx * 2 ^ 53) by (fold m'; lia).
  rewrite Hval in Hlb1, Hlb2.
  set (k := e3 - (ex - ey - 53)) in *.
  assert (Hk : 0 <= k) by (unfold k; destruct He3 as [->|[-> _]]; lia).
  destruct (Z_lt_le_dec e3 (-52)) as [Hlt|Hge]; [left; assumption|right].
  assert (Hcontra : e3 = -52 /\ (2 ^ 52 < Zpos m3 -> False)); [|lia].
  destruct (Z.eq_dec e3 (-52)) as [He52|Hne52].
  - split; [assumption|]. intros Hbig. specialize (Hlb2 Hbig).
    assert (Hk1 : 1 <= k) by (unfold k; lia).
    assert (Hpow : 2 <= 2 ^ k).
    { change 2 with (2 ^ 1) at 1. apply Z.pow_le_mono_r; lia. }
    assert (Hc : (2 ^ 53 + 1) * (Zpos my * 2 ^ k) <= (2 * Zpos m3 - 1) * (Zpos my * 2 ^ k)).
    { apply Z.mul_le_mono_nonneg_r; [|lia]. apply Z.mul_nonneg_nonneg; lia. }
    destruct Hle as [Hexy|[Hexy Hmxy]].
    + assert (Hk2 : 2 <= k) by (unfold k; lia).
      assert (Hpow4 : 4 <= 2 ^ k).
      { change 4 with (2 ^ 2). apply Z.pow_le_mono_r; lia. }
      assert (Hmy4 : 2 ^ 52 * 4 <= Zpos my * 2 ^ k)
        by (apply Z.mul_le_mono_nonneg; lia).
      change (2 ^ 53) with 9007199254740992 in *.
      change (2 ^ 52) with 4503599627370496 in *. lia.
    + assert (Hmy2 : Zpos my * 2 <= Zpos my * 2 ^ k)
        by (apply Z.mul_le_mono_nonneg_l; lia).
      change (2 ^ 53) with 9007199254740992 in *.
      change (2 ^ 52) with 4503599627370496 in *. lia.
  - exfalso.
    assert (Hk2 : 2 <= k).
    { unfold k. destruct Hle as [Hexy|[Hexy Hmxy]]; lia. }
    assert (Hpow4 : 4 <= 2 ^ k).
    { change 4 with (2 ^ 2). apply Z.pow_le_mono_r; lia. }
    assert (Hmy4 : 2 ^ 52 * 4 <= Zpos my * 2 ^ k)
      by (apply Z.mul_le_mono_nonneg; lia).
    change (2 ^ 54) with 18014398509481984 in *.
    change (2 ^ 53) with 9007199254740992 in *.
    change (2 ^ 52) with 4503599627370496 in *. lia.
Qed.

#[export] Instance Binary64RoundingLaws : RoundingLaws Binary64Float.
Proof.
  split. intros a b [Ha Hab] Hb Hrange.
  change (SFleb (S754_zero false)
            (SFdiv Binary64.prec Binary64.emax
               (Binary64.truediv a 1000000) (Binary64.truediv b 1000000)) = true
          /\ SFleb (SFdiv Binary64.prec Binary64.emax
                      (Binary64.truediv a 1000000) (Binary64.truediv b 1000000))
               (S754_finite false 4503599627370496 (-52)) = true).
  unfold is_timedelta in Hrange.
  destruct b as [|b|b]; try lia.
  destruct (truediv_million_spec b ltac:(lia)) as (mb & eb & Hyb & Hmb & Heb & _).
  destruct a as [|a|a]; try lia.
  - rewrite Hyb. split; reflexivity.
  - pose proof (truediv_million_mono a b Hab ltac:(lia)) as Hmono.
    destruct (truediv_million_spec a ltac:(lia)) as (ma & ea & Hya & Hma & Hea & _).
    rewrite Hya, Hyb in *. apply SFleb_finite in Hmono.
    destruct (SFdiv_le_one ma mb ea eb Hma Hmb Hea Heb Hmono) as (m3 & e3 & -> & Hone).
    split; [reflexivity|]. apply SFleb_finite. exact Hone.
Qed.

(** ** A window of length zero *)

Section ZeroWindow.
Context `{F : FloatOps} {L : FloatLaws F}.
Variable requests_get : string -> Response.

Lemma total_seconds_zero : total_seconds 0 = fzero.
Proof. unfold total_seconds. apply truediv_zero. lia. Qed.

(** C3: when [t0 = t1] the call returns no report: it raises.  The exception
    is [ZeroDivisionError], raised by the division of line 109, unless a query
    failed before. *)
Theorem zero_length_window_raises (t0 t1 : datetime) (starts ends : list datetime)
  (log : list string) :
  t0 = t1 ->
  (exists e, fst (get_livetime_interval requests_get t0 t1 starts ends log) = Raise e)
  /\ (Forall (answers requests_get) (windows t0 t1 (combine starts ends)) ->
      answers requests_get (t0, t1) ->
      fst (get_livetime_interval requests_get t0 t1 starts ends log)
      = Raise ZeroDivisionError).
Proof.
  intros <-.
  assert (Hd : float_eqb (total_seconds (t0 - t0)) fzero = true).
  { rewrite Z.sub_diag, total_seconds_zero. apply fzero_eqb. }
  assert (Hz : Forall (answers requests_get) (windows t0 t0 (combine starts ends)) ->
               answers requests_get (t0, t0) ->
               fst (get_livetime_interval requests_get t0 t0 starts ends log)
               = Raise ZeroDivisionError).
  { intros Hws Hq.
    now rewrite (get_livetime_interval_zero_division requests_get t0 t0 starts ends log Hws Hq Hd). }
  split; [|exact Hz].
  destruct (first_failure requests_get (windows t0 t0 (combine starts ends)))
    as [Hws|(l1 & w & l2 & e & Hsplit & H1 & Hw)].
  - destruct (answer requests_get (t0, t0)) as [q|e] eqn:Hq.
    + exists ZeroDivisionError. apply Hz; [assumption|now exists q].
    + exists e.
      now rewrite (get_livetime_interval_delivered_raise requests_get t0 t0 starts ends log e Hws Hq).
  - exists e.
    now rewrite (get_livetime_interval_loop_raise requests_get t0 t0 starts ends log l1 w l2 e Hsplit H1 Hw).
Qed.
End ZeroWindow.

Lemma zero_length_window_raises_witness :
  fst (get_livetime_interval (F := Binary64Float) no_beam
         1700000000000000 1700000000000000
         [1699999999000000] [1700000001000000] [])
  = Raise ZeroDivisionError.
Proof.
  apply (zero_length_window_raises (F := Binary64Float) no_beam
           1700000000000000 1700000000000000
           [1699999999000000] [1700000001000000] [] eq_refl).
  - repeat constructor; now exists (0, S754_zero false).
  - now exists (0, S754_zero false).
Defined.

(** ** A response that is not 200 *)

Section Status.
Context `{F : FloatOps}.
Variable requests_get : string -> Response.

Lemma answers_status (w : datetime * datetime) :
  answers requests_get w -> status_code (requests_get (url_of w)) = 200.
Proof.
  intros [q Hq]. unfold answer, parse_response in Hq. fold (url_of w) in Hq.
  destruct (status_code (requests_get (url_of w)) =? 200) eqn:E.
  - now apply Z.eqb_eq.
  - discriminate Hq.
Qed.

Lemma answer_not_200 (w : datetime * datetime) :
  status_code (requests_get (url_of w)) <> 200 ->
  answer requests_get w
  = Raise (RuntimeError
             ("Error querying data: "
                ++ str_of_int (status_code (requests_get (url_of w))))%string).
Proof.
  intros H. unfold answer, parse_response. fold (url_of w).
  apply Z.eqb_neq in H. now rewrite H.
Qed.

Lemma urls_status (ws : list (datetime * datetime)) (u : string) :
  Forall (answers requests_get) ws -> In u (map url_of ws) ->
  status_code (requests_get u) = 200.
Proof.
  intros Hws Hu. apply in_map_iff in Hu. destruct Hu as (w & <- & Hw).
  apply answers_status. rewrite Forall_forall in Hws. now apply Hws.
Qed.

(** C4: a query whose response has a status other than 200 raises
    [RuntimeError] with the status in its message, after that one request.
    In a call of [get_livetime_interval], a request answered with such a
    status is the last one made, and the call raises that exception: no
    report is returned. *)
Theorem status_not_200_raises :
  (forall t0 t1 log,
      status_code (requests_get (query_url t0 t1)) <> 200 ->
      query_pot_interval requests_get t0 t1 log
      = (Raise (RuntimeError
                  ("Error querying data: "
                     ++ str_of_int (status_code (requests_get (query_url t0 t1))))%string),
         log ++ [query_url t0 t1]))
  /\ (forall t0 t1 starts ends r made u,
         run (get_livetime_interval requests_get t0 t1 starts ends) = (r, made) ->
         In u made ->
         status_code (requests_get u) <> 200 ->
         r = Raise (RuntimeError
                      ("Error querying data: "
                         ++ str_of_int (status_code (requests_get u)))%string)
         /\ exists before, made = before ++ [u] /\ ~ In u before).
Proof.
  split.
  - intros t0 t1 log H. rewrite query_pot_interval_run.
    now rewrite (answer_not_200 (t0, t1) H).
  - intros t0 t1 starts ends r made u Hrun Hin Hu. unfold run in Hrun.
    assert (Hlast : forall l w e,
               Forall (answers requests_get) l ->
               answer requests_get w = Raise e ->
               (r, made) = (Raise e, [] ++ map url_of l ++ [url_of w]) ->
               r = Raise (RuntimeError
                            ("Error querying data: "
                               ++ str_of_int (status_code (requests_get u)))%string)
               /\ exists before, made = before ++ [u] /\ ~ In u before).
    { intros l w e Hl Hw Heq. injection Heq as -> ->. cbn [app] in Hin.
      assert (Hnot : ~ In u (map url_of l)).
      { intros Hin'. apply Hu. now apply (urls_status l). }
      apply in_app_or in Hin. destruct Hin as [Hin|[<-|[]]]; [contradiction|].
      rewrite (answer_not_200 w Hu) in Hw. injection Hw as <-.
      split; [reflexivity|]. now exists (map url_of l). }
    destruct (first_failure requests_get (windows t0 t1 (combine starts ends)))
      as [Hws|(l1 & w & l2 & e & Hsplit & H1 & Hw)].
    + destruct (answer requests_get (t0, t1)) as [q|e] eqn:Hq.
      * exfalso. apply Hu.
        assert (Hall : Forall (answers requests_get)
                         (windows t0 t1 (combine starts ends) ++ [(t0, t1)])).
        { apply Forall_app. split; [assumption|]. repeat constructor. now exists q. }
        apply (urls_status _ u Hall). rewrite map_app. cbn [map].
        assert (Hq' : answers requests_get (t0, t1)) by now exists q.
        destruct (float_eqb (total_seconds (t1 - t0)) fzero) eqn:Hd.
        -- rewrite (get_livetime_interval_zero_division requests_get t0 t1 starts ends [] Hws Hq' Hd) in Hrun.
           injection Hrun as _ <-. exact Hin.
        -- rewrite (get_livetime_interval_ok requests_get t0 t1 starts ends [] Hws Hq' Hd) in Hrun.
           injection Hrun as _ <-. exact Hin.
      * rewrite (get_livetime_interval_delivered_raise requests_get t0 t1 starts ends [] e Hws Hq) in Hrun.
        now apply (Hlast _ (t0, t1) e Hws Hq).
    + rewrite (get_livetime_interval_loop_raise requests_get t0 t1 starts ends [] l1 w l2 e Hsplit H1 Hw) in Hrun.
      now apply (Hlast l1 w e H1 Hw).
Qed.
End Status.

(** A service that answers 500: the first query raises, and the call makes
    no other request. *)
Example status_500_aborts :
  raised_exception
    (run (get_livetime_interval (F := Binary64Float) down
            1700000000000000 1700000010000000
            [1700000001000000; 1700000003000000]
            [1700000002000000; 1700000004000000]))
  = (Some (RuntimeError "Error querying data: 500"),
     [query_url (F := Binary64Float) 1700000001000000 1700000002000000]).
Proof. vm_compute. reflexivity. Qed.

(** ** No DAQ interval *)

Section Empty.
Context `{F : FloatOps} {L : FloatLaws F}.
Variable requests_get : string -> Response.

(** C7: with [starts = []] and [ends = []] and [t0 < t1] the call makes the
    one request for the full window.  When that query returns [q], the call
    returns a report with [collected_spills = 0], [collected_pot == 0.0],
    [livetime = 0.0], [livetime_fraction == 0.0] and the delivered values
    [q]; when the query raises, the call raises the same exception. *)
Theorem empty_lists_report (t0 t1 : datetime) (log : list string) :
  t0 < t1 ->
  match query_pot_interval requests_get t0 t1 log with
  | (Ok q, log') =>
      exists rep,
        get_livetime_interval requests_get t0 t1 [] [] log = (Ok rep, log')
        /\ collected_spills rep = 0
        /\ py_eqb (collected_pot rep) (PyFloat fzero) = true
        /\ livetime rep = fzero
        /\ float_eqb (livetime_fraction rep) fzero = true
        /\ (delivered_spills rep, delivered_pot rep) = q
  | (Raise e, log') =>
      get_livetime_interval requests_get t0 t1 [] [] log = (Raise e, log')
  end.
Proof.
  intros Ht. rewrite query_pot_interval_run.
  assert (Hnil : Forall (answers requests_get) (windows t0 t1 (combine [] [])))
    by constructor.
  destruct (answer requests_get (t0, t1)) as [q|e] eqn:Hq.
  - assert (Hd : float_eqb (total_seconds (t1 - t0)) fzero = false).
    { apply total_seconds_nonzero. unfold datetime in *. lia. }
    assert (Hq' : answers requests_get (t0, t1)) by now exists q.
    rewrite (get_livetime_interval_ok requests_get t0 t1 [] [] log Hnil Hq' Hd).
    eexists. split; [reflexivity|]. cbn.
    unfold returned. unfold datetime in *. rewrite Hq.
    repeat split.
    + unfold float_of_int. rewrite truediv_zero by lia. apply fzero_eqb.
    + apply total_seconds_zero.
    + rewrite total_seconds_zero. apply fdiv_zero_l; [|assumption].
      apply total_seconds_number.
    + now destruct q.
  - now rewrite (get_livetime_interval_delivered_raise requests_get t0 t1 [] [] log e Hnil Hq).
Qed.
End Empty.

Lemma empty_lists_report_witness :
  exists rep,
    get_livetime_interval (F := Binary64Float) three_spills
      1700000000000000 1700000010000000 [] [] []
    = (Ok rep, [query_url 1700000000000000 1700000010000000])
    /\ collected_spills rep = 0
    /\ py_eqb (collected_pot rep) (PyFloat fzero) = true
    /\ livetime rep = fzero
    /\ float_eqb (livetime_fraction rep) fzero = true
    /\ (delivered_spills rep, delivered_pot rep)
       = (4, S754_finite false 5629499534213120 (-51)).
Proof.
  apply (empty_lists_report (F := Binary64Float) three_spills
           1700000000000000 1700000010000000 [] eq_refl).
Defined.

(** ** Lists of unequal lengths *)


Section Lengths.
Context `{F : FloatOps}.
Variable requests_get : string -> Response.

End Lengths.

(** ** A reversed interval *)

(** C10: an interval with [end_ < start] that passes the test of line 93 has a
    clipped window of negative length, which the loop adds to the overlap;
    nothing rejects such an interval.  On doubles, the call for the window of
    ten seconds from 1700000000 with the one interval from second 8 back to
    second 2 returns [livetime = -6.0] and [livetime_fraction = -0.6]. *)
Theorem reversed_interval_negative_livetime :
  (forall (F : FloatOps) (requests_get : string -> Response)
          (t0 t1 start end_ : datetime) (a : acc) (log : list string) (q : Z * float),
      skipped t0 t1 start end_ = false -> end_ < start ->
      answer requests_get (clip t0 t1 start end_) = Ok q ->
      exists a',
        fst (loop_body requests_get t0 t1 a (start, end_) log) = Ok a'
        /\ acc_overlap a' < acc_overlap a)
  /\ exists (t0 t1 start end_ : datetime) (rep : report),
      t0 < t1 /\ end_ < start /\ start <= t1 /\ t0 <= end_
      /\ run (get_livetime_interval (F := Binary64Float) no_beam t0 t1 [start] [end_])
         = (Ok rep, [query_url start end_; query_url t0 t1])
      /\ livetime rep = S754_finite true 6755399441055744 (-50)
      /\ livetime_fraction rep = S754_finite true 5404319552844595 (-53)
      /\ float_ltb (livetime rep) fzero = true
      /\ float_ltb (livetime_fraction rep) fzero = true.
Proof.
  split.
  - intros F requests_get t0 t1 start end_ a log q Hs Hrev Hq.
    rewrite (loop_body_live requests_get t0 t1 start end_ a log Hs), Hq. cbn [fst]. eexists. split; [reflexivity|].
    apply skipped_false in Hs. unfold clip. cbn [add_query acc_overlap fst snd].
    unfold datetime, timedelta in *. lia.
  - exists 1700000000000000, 1700000010000000, 1700000008000000, 1700000002000000.
    eexists. repeat split; try lia; vm_compute; reflexivity.
Qed.

(** ** The order of the intervals *)


Section Order.
Context `{F : FloatOps}.
Variable requests_get : string -> Response.






End Order.


(** On doubles the two orders of the three spills give different sums:
    [(1e16 + 1.0) + -1e16] is [0.0] and [(1e16 + -1e16) + 1.0] is [1.0].
    The other values are [3.0], [0.3], 4, 3 and [2.5] in both. *)
Example collected_pot_depends_on_order :
  returned_values
    (run (get_livetime_interval (F := Binary64Float) three_spills
            1700000000000000 1700000010000000
            [1700000001000000; 1700000003000000; 1700000005000000]
            [1700000002000000; 1700000004000000; 1700000006000000]))
  = Some (S754_finite false 6755399441055744 (-51),
          S754_finite false 5404319552844595 (-54), 4, 3,
          S754_finite false 5629499534213120 (-51),
          S754_zero false)
  /\ returned_values
       (run (get_livetime_interval (F := Binary64Float) three_spills
               1700000000000000 1700000010000000
               [1700000001000000; 1700000005000000; 1700000003000000]
               [1700000002000000; 1700000006000000; 1700000004000000]))
     = Some (S754_finite false 6755399441055744 (-51),
             S754_finite false 5404319552844595 (-54), 4, 3,
             S754_finite false 5629499534213120 (-51),
             S754_finite false 4503599627370496 (-52)).
Proof. split; vm_compute; reflexivity. Qed.

(** ** Disjoint intervals inside the window *)

Lemma total_overlap_cons (p : datetime * datetime) (l : list (datetime * datetime)) :
  total_overlap (p :: l) = (snd p - fst p) + total_overlap l.
Proof. reflexivity. Qed.





Section Fraction.
Context `{F : FloatOps} {L : FloatLaws F} {R : RoundingLaws F}.
Variable requests_get : string -> Response.


End Fraction.


(** ** Splitting and joining *)

Lemma split_not_nil (sep : ascii) (s : string) : split sep s <> [].
Proof.
  destruct s as [|c s]; cbn; [discriminate|].
  destruct (Ascii.eqb c sep); [discriminate|]. destruct (split sep s); discriminate.
Qed.

Lemma split_without (sep : ascii) (s : string) :
  contains sep s = false -> split sep s = [s].
Proof.
  induction s as [|c s IH]; [reflexivity|]. cbn.
  intros H. apply orb_false_iff in H. destruct H as [Hc Hs].
  now rewrite Hc, (IH Hs).
Qed.

Lemma split_append (sep : ascii) (s rest : string) :
  contains sep s = false ->
  split sep (s ++ String sep rest) = s :: split sep rest.
Proof.
  induction s as [|c s IH]; cbn.
  - intros _. now rewrite Ascii.eqb_refl.
  - intros H. apply orb_false_iff in H. destruct H as [Hc Hs].
    now rewrite Hc, (IH Hs).
Qed.

Lemma join_cons (sep : ascii) (p q : string) (l : list string) :
  join sep (p :: q :: l) = (p ++ String sep (join sep (q :: l)))%string.
Proof. reflexivity. Qed.

(** Splitting what was joined gives the pieces back. *)
Lemma split_join (sep : ascii) (pieces : list string) :
  pieces <> [] -> Forall (fun p => contains sep p = false) pieces ->
  split sep (join sep pieces) = pieces.
Proof.
  intros Hne Hall. induction Hall as [|p l Hp Hl IH]; [contradiction|].
  destruct l as [|q l].
  - cbn. now apply split_without.
  - rewrite join_cons, split_append by assumption. f_equal. apply IH. discriminate.
Qed.

(** Every string is the join of its pieces, none of which has the separator. *)
Lemma join_split (sep : ascii) (s : string) :
  join sep (split sep s) = s
  /\ Forall (fun p => contains sep p = false) (split sep s).
Proof.
  induction s as [|c s [IHj IHf]]; [split; [reflexivity|repeat constructor]|].
  cbn [split]. pose proof (split_not_nil sep s) as Hne.
  destruct (split sep s) as [|w ws] eqn:E; [contradiction|].
  destruct (Ascii.eqb c sep) eqn:Hc.
  - apply Ascii.eqb_eq in Hc. subst c. split.
    + rewrite join_cons. cbn [append]. now rewrite IHj.
    + constructor; [reflexivity|assumption].
  - split.
    + destruct ws as [|v ws].
      * cbn in *. now rewrite IHj.
      * rewrite join_cons in *. cbn [append]. now rewrite IHj.
    + inversion IHf; subst. constructor; [|assumption]. cbn. now rewrite Hc.
Qed.

(** ** The samples of a response *)

Section Samples.
Context `{F : FloatOps} {N : NumpyLaws F}.
Variable requests_get : string -> Response.

(** The fields the comprehension of line 45 takes from a body that is a
    header and lines joined by newlines. *)
Lemma sample_fields_join (header : string) (lines : list string) :
  contains newline header = false ->
  Forall (fun line => contains newline line = false) lines ->
  sample_fields (join newline (header :: lines))
  = map (fun line => last (split comma line) EmptyString) (filter nonempty lines).
Proof.
  intros Hh Hl. unfold sample_fields.
  rewrite split_join; [reflexivity|discriminate|now constructor].
Qed.

Lemma np_array_float_carries (rows : list string) (samples : list (list string * float)) :
  Forall2 carries rows samples ->
  np_array_float (map (fun line => last (split comma line) EmptyString) rows)
  = Some (map snd samples).
Proof.
  induction 1 as [|row [fields x] rows samples (Hne & Hf & -> & Hx) _ IH];
    [reflexivity|].
  cbn [map np_array_float snd]. rewrite split_join by assumption.
  now rewrite Hx, IH.
Qed.

Lemma np_array_float_fails (fields : list string) :
  Exists (fun f => np_float f = None) fields -> np_array_float fields = None.
Proof.
  induction 1 as [f fs Hf|f fs _ IH]; cbn [np_array_float].
  - now rewrite Hf.
  - destruct (np_float f); [|reflexivity]. now rewrite IH.
Qed.

(** C5, amended: for a response with status 200 whose body is a header line
    and further lines joined by newlines, the query returns [(spills, pot)]
    where [spills] is the number of non-empty lines after the header and
    [pot] is [np.sum] of the values their last comma-separated fields
    convert to, provided each of these fields converts; with no non-empty
    line after the header it returns [(0, 0.0)]; and when some last field
    does not convert, it raises [ValueError] and returns nothing. *)
Theorem query_pot_interval_counts_and_sums (t0 t1 : datetime) (log : list string)
  (header : string) (lines : list string) :
  status_code (requests_get (query_url t0 t1)) = 200 ->
  text (requests_get (query_url t0 t1)) = join newline (header :: lines) ->
  contains newline header = false ->
  Forall (fun line => contains newline line = false) lines ->
  let rows := filter nonempty lines in
  (forall samples,
      Forall2 carries rows samples ->
      query_pot_interval requests_get t0 t1 log
      = (Ok (Z.of_nat (List.length rows), np_sum (map snd samples)),
         log ++ [query_url t0 t1]))
  /\ (rows = [] ->
      query_pot_interval requests_get t0 t1 log
      = (Ok (0, fzero), log ++ [query_url t0 t1]))
  /\ (Exists (fun row => np_float (last (split comma row) EmptyString) = None) rows ->
      query_pot_interval requests_get t0 t1 log
      = (Raise ValueError, log ++ [query_url t0 t1])).
Proof.
  intros Hstatus Htext Hh Hl rows.
  assert (Hrun : query_pot_interval requests_get t0 t1 log
                 = (match np_array_float
                            (map (fun line => last (split comma line) EmptyString) rows) with
                    | Some data => Ok (Z.of_nat (List.length data), np_sum data)
                    | None => Raise ValueError
                    end, log ++ [query_url t0 t1])).
  { rewrite query_pot_interval_run. unfold answer, parse_response. cbn [fst snd].
    rewrite Hstatus, Htext, (sample_fields_join header lines Hh Hl). cbn [Z.eqb negb].
    fold rows. destruct (np_array_float _); reflexivity. }
  assert (Hsamples : forall samples,
             Forall2 carries rows samples ->
             query_pot_interval requests_get t0 t1 log
             = (Ok (Z.of_nat (List.length rows), np_sum (map snd samples)),
                log ++ [query_url t0 t1])).
  { intros samples Hs. rewrite Hrun, (np_array_float_carries rows samples Hs).
    now rewrite length_map, (Forall2_length Hs). }
  split; [exact Hsamples|]. split.
  - intros Hnil. rewrite (Hsamples []); [|rewrite Hnil; constructor].
    rewrite Hnil. cbn [List.length map Z.of_nat]. now rewrite np_sum_nil.
  - intros Hbad. rewrite Hrun, np_array_float_fails; [reflexivity|].
    now apply Exists_map.
Qed.
End Samples.

Lemma query_pot_interval_counts_and_sums_witness :
  query_pot_interval (F := Binary64Float) three_spills
    1700000000000000 1700000010000000 []
  = (Ok (4, S754_finite false 5629499534213120 (-51)),
     [query_url 1700000000000000 1700000010000000]).
Proof.
  assert (Hlines : Forall (fun line => contains newline line = false)
                     ["1700000001500,1e16"; "1700000003500,1.0";
                      "1700000005500,-1e16"; "1700000008500,2.5"; ""])
    by (repeat constructor).
  assert (Hstatus : status_code (three_spills
                                   (query_url 1700000000000000 1700000010000000)) = 200)
    by (vm_compute; reflexivity).
  assert (Htext : text (three_spills (query_url 1700000000000000 1700000010000000))
                  = join newline
                      ["clock,value"; "1700000001500,1e16"; "1700000003500,1.0";
                       "1700000005500,-1e16"; "1700000008500,2.5"; ""])
    by (vm_compute; reflexivity).
  destruct (query_pot_interval_counts_and_sums (F := Binary64Float) three_spills
              1700000000000000 1700000010000000 [] "clock,value" _
              Hstatus Htext eq_refl Hlines)
    as (Hsamples & _ & _).
  apply (Hsamples
           [(["1700000001500"; "1e16"], S754_finite false 5000000000000000 1);
            (["1700000003500"; "1.0"], S754_finite false 4503599627370496 (-52));
            (["1700000005500"; "-1e16"], S754_finite true 5000000000000000 1);
            (["1700000008500"; "2.5"], S754_finite false 5629499534213120 (-51))]).
  repeat constructor; discriminate.
Defined.

(** The claim as stated fails on a body with a data line that does not end
    in a number: the call returns no pair. *)
Lemma garbled_line_returns_nothing :
  ~ exists spills pot,
      fst (run (query_pot_interval (F := Binary64Float) garbled
                  1700000000000000 1700000010000000))
      = Ok (spills, pot).
Proof. intros (spills & pot & H). vm_compute in H. discriminate H. Qed.

(** * Further properties of the two functions *)

(** ** Runs on doubles *)

(** The call of the examples returns a report. *)
Lemma three_spills_run :
  exists rep log',
    get_livetime_interval (F := Binary64Float) three_spills
      example_t0 example_t1 example_starts example_ends []
    = (Ok rep, log').
Proof.
  eexists. eexists.
  apply (get_livetime_interval_ok (F := Binary64Float) three_spills
           example_t0 example_t1 example_starts example_ends []).
  - repeat constructor; eexists; vm_compute; reflexivity.
  - eexists; vm_compute; reflexivity.
  - reflexivity.
Qed.

(** With no beam every query returns [(0, 0.0)], and every call for a window
    that is not empty returns a report. *)
Lemma no_beam_answers (w : datetime * datetime) : answers (F := Binary64Float) no_beam w.
Proof. now exists (0, S754_zero false). Qed.

Lemma no_beam_run (t0 t1 : datetime) (starts ends : list datetime) :
  t0 <> t1 ->
  exists rep log',
    get_livetime_interval (F := Binary64Float) no_beam t0 t1 starts ends []
    = (Ok rep, log').
Proof.
  intros Ht. eexists. eexists.
  apply (get_livetime_interval_ok (F := Binary64Float) no_beam t0 t1 starts ends []).
  - apply Forall_forall. intros w _. apply no_beam_answers.
  - apply no_beam_answers.
  - apply total_seconds_nonzero. unfold datetime in *. lia.
Qed.

(** ** The requests of a call *)

Section Requests.
Context `{F : FloatOps}.
Variable requests_get : string -> Response.

(** The three ways a call raises, and the one way it returns. *)
Lemma get_livetime_interval_cases (t0 t1 : datetime) (starts ends : list datetime)
  (log : list string) :
  let ws := windows t0 t1 (combine starts ends) in
  let call := get_livetime_interval requests_get t0 t1 starts ends log in
  (exists before w after e,
      ws = before ++ w :: after /\ Forall (answers requests_get) before
      /\ answer requests_get w = Raise e
      /\ call = (Raise e, log ++ map url_of before ++ [url_of w]))
  \/ (Forall (answers requests_get) ws
      /\ exists e, answer requests_get (t0, t1) = Raise e
                   /\ call = (Raise e, log ++ map url_of ws ++ [url_of (t0, t1)]))
  \/ (Forall (answers requests_get) ws /\ answers requests_get (t0, t1)
      /\ float_eqb (total_seconds (t1 - t0)) fzero = true
      /\ call = (Raise ZeroDivisionError, log ++ map url_of ws ++ [url_of (t0, t1)]))
  \/ (Forall (answers requests_get) ws /\ answers requests_get (t0, t1)
      /\ float_eqb (total_seconds (t1 - t0)) fzero = false
      /\ call = (Ok (report_of requests_get t0 t1 ws),
                 log ++ map url_of ws ++ [url_of (t0, t1)])).
Proof.
  intros ws call. subst call.
  destruct (first_failure requests_get ws) as [Hws|(l1 & w & l2 & e & Hsplit & H1 & Hw)].
  - right. destruct (answer requests_get (t0, t1)) as [q|e] eqn:Hq.
    + right. assert (Hq' : answers requests_get (t0, t1)) by now exists q.
      destruct (float_eqb (total_seconds (t1 - t0)) fzero) eqn:Hd.
      * left. repeat split; try assumption.
        apply (get_livetime_interval_zero_division requests_get t0 t1 starts ends log Hws Hq' Hd).
      * right. repeat split; try assumption.
        apply (get_livetime_interval_ok requests_get t0 t1 starts ends log Hws Hq' Hd).
    + left. split; [assumption|]. exists e. split; [reflexivity|].
      apply (get_livetime_interval_delivered_raise requests_get t0 t1 starts ends log e Hws Hq).
  - left. exists l1, w, l2, e. repeat split; try assumption.
    apply (get_livetime_interval_loop_raise requests_get t0 t1 starts ends log l1 w l2 e Hsplit H1 Hw).
Qed.

(** X1: a call that returns a report has made one request for each interval
    that is not skipped, for its clipped window and in the order of the
    lists, and then one request for the full window, which is the last. *)
Theorem report_requests (t0 t1 : datetime) (starts ends : list datetime)
  (log log' : list string) (rep : report) :
  get_livetime_interval requests_get t0 t1 starts ends log = (Ok rep, log') ->
  log' = log ++ map url_of (windows t0 t1 (combine starts ends)) ++ [url_of (t0, t1)]
  /\ List.length log'
     = S (List.length log + List.length (filter (live t0 t1) (combine starts ends))).
Proof.
  intros Hrun.
  assert (Hlog : log' = log ++ map url_of (windows t0 t1 (combine starts ends))
                          ++ [url_of (t0, t1)]).
  { destruct (get_livetime_interval_cases t0 t1 starts ends log)
      as [(l1 & w & l2 & e & _ & _ & _ & H)|[(_ & e & _ & H)|[(_ & _ & _ & H)|(_ & _ & _ & H)]]];
      rewrite H in Hrun; try discriminate Hrun.
    now injection Hrun as _ <-. }
  split; [exact Hlog|].
  rewrite Hlog, !length_app, length_map. unfold windows. rewrite length_map.
  cbn [List.length]. lia.
Qed.
End Requests.

Lemma report_requests_witness :
  exists rep log',
    get_livetime_interval (F := Binary64Float) three_spills
      example_t0 example_t1 example_starts example_ends []
    = (Ok rep, log')
    /\ log' = [] ++ map url_of (windows example_t0 example_t1
                                  (combine example_starts example_ends))
                 ++ [url_of (example_t0, example_t1)]
    /\ List.length log'
       = S (List.length (@nil string)
            + List.length (filter (live example_t0 example_t1)
                             (combine example_starts example_ends))).
Proof.
  destruct three_spills_run as (rep & log' & Hrun).
  exists rep, log'. split; [exact Hrun|].
  exact (report_requests three_spills example_t0 example_t1
           example_starts example_ends [] log' rep Hrun).
Defined.

Section Outcome.
Context `{F : FloatOps} {L : FloatLaws F}.
Variable requests_get : string -> Response.

Lemma zero_seconds_iff (td : timedelta) :
  float_eqb (total_seconds td) fzero = true <-> td = 0.
Proof.
  split.
  - intros H. destruct (Z.eq_dec td 0) as [E|E]; [assumption|].
    rewrite (total_seconds_nonzero td E) in H. discriminate H.
  - intros ->. rewrite total_seconds_zero. apply fzero_eqb.
Qed.


End Outcome.



(** ** A window that is empty or reversed *)

Lemma windows_collapsed (t0 t1 : datetime) (pairs : list (datetime * datetime)) :
  t1 <= t0 ->
  windows t0 t1 pairs = repeat (t0, t1) (List.length (filter (live t0 t1) pairs)).
Proof.
  intros Ht. unfold windows. induction pairs as [|[s e] l IH]; [reflexivity|].
  cbn [filter]. destruct (live t0 t1 (s, e)) eqn:Hl; [|exact IH].
  cbn [map List.length repeat fst snd]. rewrite IH. f_equal.
  unfold live in Hl. cbn [fst snd] in Hl. apply negb_true_iff, skipped_false in Hl.
  unfold clip. unfold datetime in *. f_equal; lia.
Qed.

Lemma total_overlap_repeat (w : datetime * datetime) (n : nat) :
  total_overlap (repeat w n) = Z.of_nat n * (snd w - fst w).
Proof.
  induction n as [|n IH]; [reflexivity|].
  cbn [repeat]. rewrite total_overlap_cons, IH. lia.
Qed.

Lemma total_spills_repeat `{F : FloatOps} (requests_get : string -> Response)
  (w : datetime * datetime) (n : nat) :
  total_spills requests_get (repeat w n) = Z.of_nat n * fst (returned requests_get w).
Proof.
  induction n as [|n IH]; [reflexivity|].
  cbn [repeat]. unfold total_spills in *. cbn [fold_right]. rewrite IH. lia.
Qed.

Section Collapsed.
Context `{F : FloatOps} {L : FloatLaws F}.
Variable requests_get : string -> Response.

(** X4: for a window of length zero, [t0 = t1], whose query returns, the
    call raises [ZeroDivisionError] only after it has made every request:
    one for each interval that holds [t0], all for the window [(t0, t0)],
    and the one for the full window, which is the same. *)
Theorem zero_length_window_requests (t0 : datetime) (starts ends : list datetime)
  (log : list string) :
  answers requests_get (t0, t0) ->
  get_livetime_interval requests_get t0 t0 starts ends log
  = (Raise ZeroDivisionError,
     log ++ repeat (query_url t0 t0)
              (S (List.length (filter (fun p => (fst p <=? t0) && (t0 <=? snd p))
                                 (combine starts ends))))).
Proof.
  intros Hq.
  assert (Hfilter : filter (fun p => (fst p <=? t0) && (t0 <=? snd p)) (combine starts ends)
                    = filter (live t0 t0) (combine starts ends)).
  { apply filter_ext. intros [s e]. unfold live, skipped. cbn [fst snd].
    rewrite negb_orb, Z.gtb_ltb, <- !Z.leb_antisym. reflexivity. }
  rewrite Hfilter.
  assert (Hws : windows t0 t0 (combine starts ends)
                = repeat (t0, t0) (List.length (filter (live t0 t0) (combine starts ends))))
    by (apply windows_collapsed; lia).
  assert (Hall : Forall (answers requests_get) (windows t0 t0 (combine starts ends))).
  { rewrite Hws. apply Forall_forall. intros w Hw. apply repeat_spec in Hw. now subst w. }
  assert (Hd : float_eqb (total_seconds (t0 - t0)) fzero = true).
  { apply zero_seconds_iff. unfold datetime, timedelta in *. lia. }
  rewrite (get_livetime_interval_zero_division requests_get t0 t0 starts ends log Hall Hq Hd).
  rewrite Hws, map_repeat.
  change [url_of (t0, t0)] with (repeat (query_url t0 t0) 1).
  change (url_of (t0, t0)) with (query_url t0 t0).
  rewrite <- repeat_app, Nat.add_1_r. reflexivity.
Qed.
End Collapsed.

Lemma zero_length_window_requests_witness :
  get_livetime_interval (F := Binary64Float) no_beam
    example_t0 example_t0 [1699999999000000; 1700000003000000]
    [1700000001000000; 1700000004000000] []
  = (Raise ZeroDivisionError,
     [query_url example_t0 example_t0; query_url example_t0 example_t0]).
Proof.
  apply (zero_length_window_requests (F := Binary64Float) no_beam example_t0
           [1699999999000000; 1700000003000000]
           [1700000001000000; 1700000004000000] []).
  apply no_beam_answers.
Defined.

Section Reversed.
Context `{F : FloatOps}.
Variable requests_get : string -> Response.

(** X5: nothing rejects a reversed window, [t1 < t0].  An interval is then
    not skipped exactly when it holds both ends, [start <= t1] and
    [t0 <= end_], and its clipped window is [(t0, t1)] itself: with [n] such
    intervals, a report has [n] times the delivered spills as collected
    spills, a livetime of [n * (t1 - t0)] microseconds, which is not
    positive, and [n + 1] requests were made, all the same. *)
Theorem reversed_window_report (t0 t1 : datetime) (starts ends : list datetime)
  (log log' : list string) (rep : report) :
  t1 < t0 ->
  get_livetime_interval requests_get t0 t1 starts ends log = (Ok rep, log') ->
  let n := List.length (filter (fun p => (fst p <=? t1) && (t0 <=? snd p))
                          (combine starts ends)) in
  collected_spills rep = Z.of_nat n * delivered_spills rep
  /\ livetime rep = total_seconds (Z.of_nat n * (t1 - t0))
  /\ Z.of_nat n * (t1 - t0) <= 0
  /\ log' = log ++ repeat (query_url t0 t1) (S n).
Proof.
  intros Ht Hrun n.
  assert (Hfilter : filter (fun p => (fst p <=? t1) && (t0 <=? snd p)) (combine starts ends)
                    = filter (live t0 t1) (combine starts ends)).
  { apply filter_ext. intros [s e]. unfold live, skipped. cbn [fst snd].
    rewrite negb_orb, Z.gtb_ltb, <- !Z.leb_antisym. reflexivity. }
  assert (Hws : windows t0 t1 (combine starts ends) = repeat (t0, t1) n).
  { unfold n. rewrite Hfilter. apply windows_collapsed. unfold datetime in *. lia. }
  destruct (get_livetime_interval_cases requests_get t0 t1 starts ends log)
    as [(l1 & w & l2 & e & _ & _ & _ & H)|[(_ & e & _ & H)|[(_ & _ & _ & H)|(_ & _ & _ & H)]]];
    rewrite H in Hrun; try discriminate Hrun.
  injection Hrun as <- <-. rewrite Hws.
  cbn [report_of collected_spills delivered_spills livetime].
  rewrite final_acc_spills, final_acc_overlap, total_spills_repeat, total_overlap_repeat.
  cbn [init acc_spills acc_overlap fst snd]. rewrite !Z.add_0_l.
  repeat split.
  - unfold datetime in *. nia.
  - rewrite map_repeat.
    change [url_of (t0, t1)] with (repeat (query_url t0 t1) 1).
    change (url_of (t0, t1)) with (query_url t0 t1).
    rewrite <- repeat_app, Nat.add_1_r. reflexivity.
Qed.
End Reversed.

Lemma reversed_window_report_witness :
  exists rep log',
    get_livetime_interval (F := Binary64Float) no_beam
      example_t1 example_t0 [1699999999000000; 1700000003000000]
      [1700000011000000; 1700000004000000] []
    = (Ok rep, log')
    /\ collected_spills rep = 1 * delivered_spills rep
    /\ livetime rep = total_seconds (1 * (example_t0 - example_t1))
    /\ 1 * (example_t0 - example_t1) <= 0
    /\ log' = [] ++ [query_url example_t1 example_t0; query_url example_t1 example_t0].
Proof.
  destruct (no_beam_run example_t1 example_t0 [1699999999000000; 1700000003000000]
              [1700000011000000; 1700000004000000]) as (rep & log' & Hrun);
    [discriminate|].
  exists rep, log'. split; [exact Hrun|].
  exact (reversed_window_report (F := Binary64Float) no_beam
           example_t1 example_t0 [1699999999000000; 1700000003000000]
           [1700000011000000; 1700000004000000] [] log' rep eq_refl Hrun).
Defined.

(** ** What the report depends on *)

Lemma windows_app (t0 t1 : datetime) (l1 l2 : list (datetime * datetime)) :
  windows t0 t1 (l1 ++ l2) = windows t0 t1 l1 ++ windows t0 t1 l2.
Proof. unfold windows. now rewrite filter_app, map_app. Qed.

Lemma windows_outside (t0 t1 : datetime) (pairs : list (datetime * datetime)) :
  Forall (fun p => fst p > t1 \/ snd p < t0) pairs -> windows t0 t1 pairs = [].
Proof.
  induction 1 as [|[s e] l Hp _ IH]; [reflexivity|].
  unfold windows in *. cbn [filter]. unfold live at 1. cbn [fst snd] in *.
  now rewrite (proj2 (skipped_spec t0 t1 s e) Hp).
Qed.

Lemma windows_clipped (t0 t1 : datetime) (starts ends : list datetime) :
  t0 <= t1 ->
  windows t0 t1 (combine (map (Z.max t0) starts) (map (Z.min t1) ends))
  = windows t0 t1 (combine starts ends).
Proof.
  intros Ht. revert ends.
  induction starts as [|s starts IH]; intros [|e ends]; try reflexivity.
  cbn [map combine]. unfold windows in *. cbn [filter].
  specialize (IH ends).
  destruct (live t0 t1 (s, e)) eqn:Hl.
  - assert (Hl' : live t0 t1 (Z.max t0 s, Z.min t1 e) = true).
    { unfold live in *. cbn [fst snd] in *.
      apply negb_true_iff, skipped_false in Hl. apply negb_true_iff, skipped_false.
      unfold datetime in *. lia. }
    rewrite Hl'. cbn [map fst snd]. rewrite IH. f_equal.
    unfold live in Hl. cbn [fst snd] in Hl. apply negb_true_iff, skipped_false in Hl.
    unfold clip. unfold datetime in *. f_equal; lia.
  - assert (Hl' : live t0 t1 (Z.max t0 s, Z.min t1 e) = false).
    { unfold live in *. cbn [fst snd] in *.
      apply negb_false_iff, skipped_spec in Hl. apply negb_false_iff, skipped_spec.
      unfold datetime in *. lia. }
    rewrite Hl'. exact IH.
Qed.

Section Dependence.
Context `{F : FloatOps}.
Variable requests_get : string -> Response.

Lemma call_by_windows (t0 t1 : datetime) (starts ends starts' ends' : list datetime)
  (log : list string) :
  windows t0 t1 (combine starts ends) = windows t0 t1 (combine starts' ends') ->
  get_livetime_interval requests_get t0 t1 starts ends log
  = get_livetime_interval requests_get t0 t1 starts' ends' log.
Proof.
  intros H. unfold get_livetime_interval, bind. now rewrite !for_each_collect, H.
Qed.

(** X6: when every interval lies outside the window, after [t1] or before
    [t0], the call is the call with no interval at all: it makes the one
    request for the full window. *)
Theorem intervals_outside_ignored (t0 t1 : datetime) (starts ends : list datetime)
  (log : list string) :
  Forall (fun p => fst p > t1 \/ snd p < t0) (combine starts ends) ->
  get_livetime_interval requests_get t0 t1 starts ends log
  = get_livetime_interval requests_get t0 t1 [] [] log.
Proof.
  intros H. apply call_by_windows. now rewrite (windows_outside t0 t1 _ H).
Qed.

(** X7: for a window [t0 <= t1], clipping the intervals to the window
    beforehand, every start to [max(t0, start)] and every end to
    [min(t1, end)], changes nothing: the same requests and the same
    result. *)
Theorem clipping_beforehand_changes_nothing (t0 t1 : datetime)
  (starts ends : list datetime) (log : list string) :
  t0 <= t1 ->
  get_livetime_interval requests_get t0 t1
    (map (Z.max t0) starts) (map (Z.min t1) ends) log
  = get_livetime_interval requests_get t0 t1 starts ends log.
Proof.
  intros Ht. apply call_by_windows. now apply windows_clipped.
Qed.

(** X8: the delivered values of a report are those the query for the full
    window returns on its own, whatever the intervals. *)
Theorem delivered_is_full_window_query (t0 t1 : datetime) (starts ends : list datetime)
  (log log' log0 : list string) (rep : report) :
  get_livetime_interval requests_get t0 t1 starts ends log = (Ok rep, log') ->
  query_pot_interval requests_get t0 t1 log0
  = (Ok (delivered_spills rep, delivered_pot rep), log0 ++ [query_url t0 t1]).
Proof.
  intros Hrun.
  destruct (get_livetime_interval_cases requests_get t0 t1 starts ends log)
    as [(l1 & w & l2 & e & _ & _ & _ & H)|[(_ & e & _ & H)|[(_ & _ & _ & H)|(_ & [q Hq] & _ & H)]]];
    rewrite H in Hrun; try discriminate Hrun.
  injection Hrun as <- _. rewrite query_pot_interval_run.
  cbn [report_of delivered_spills delivered_pot]. unfold returned.
  unfold datetime in *. rewrite Hq. now destruct q.
Qed.

Lemma pot_sum_float (a : pynum) (x : float) (xs : list float) :
  exists y, pot_sum a (x :: xs) = PyFloat y.
Proof.
  unfold pot_sum. cbn [fold_left].
  assert (H : forall l y, exists z,
               fold_left (fun a x => py_add a (PyFloat x)) l (PyFloat y) = PyFloat z).
  { induction l as [|x' l IH]; intros y; cbn [fold_left]; [now exists y|]. apply IH. }
  destruct a; apply H.
Qed.

(** X9: [collected_pot] starts as the int [0] and is a float after the first
    addition: in a report it is the int [0] when no interval was queried and
    a float otherwise. *)
Theorem collected_pot_int_or_float (t0 t1 : datetime) (starts ends : list datetime)
  (log log' : list string) (rep : report) :
  get_livetime_interval requests_get t0 t1 starts ends log = (Ok rep, log') ->
  match filter (live t0 t1) (combine starts ends) with
  | [] => collected_pot rep = PyInt 0
  | _ :: _ => exists x, collected_pot rep = PyFloat x
  end.
Proof.
  intros Hrun.
  destruct (get_livetime_interval_cases requests_get t0 t1 starts ends log)
    as [(l1 & w & l2 & e & _ & _ & _ & H)|[(_ & e & _ & H)|[(_ & _ & _ & H)|(_ & _ & _ & H)]]];
    rewrite H in Hrun; try discriminate Hrun.
  injection Hrun as <- _. cbn [report_of collected_pot]. rewrite final_acc_pot.
  unfold windows. destruct (filter (live t0 t1) (combine starts ends)) as [|p l].
  - reflexivity.
  - cbn [map pots]. apply pot_sum_float.
Qed.

Lemma answer_spills_nonneg (w : datetime * datetime) :
  0 <= fst (returned requests_get w).
Proof.
  unfold returned, answer, parse_response.
  destruct (negb (status_code (requests_get (query_url (fst w) (snd w))) =? 200));
    [cbn; lia|].
  destruct (np_array_float (sample_fields (text (requests_get (query_url (fst w) (snd w))))));
    cbn; lia.
Qed.

Lemma total_spills_nonneg (ws : list (datetime * datetime)) :
  0 <= total_spills requests_get ws.
Proof.
  induction ws as [|w ws IH]; [cbn; lia|].
  unfold total_spills in *. cbn [fold_right].
  pose proof (answer_spills_nonneg w). lia.
Qed.

(** X10: the spill counts of a report are not negative. *)
Theorem spill_counts_not_negative (t0 t1 : datetime) (starts ends : list datetime)
  (log log' : list string) (rep : report) :
  get_livetime_interval requests_get t0 t1 starts ends log = (Ok rep, log') ->
  0 <= delivered_spills rep /\ 0 <= collected_spills rep.
Proof.
  intros Hrun.
  destruct (get_livetime_interval_cases requests_get t0 t1 starts ends log)
    as [(l1 & w & l2 & e & _ & _ & _ & H)|[(_ & e & _ & H)|[(_ & _ & _ & H)|(_ & _ & _ & H)]]];
    rewrite H in Hrun; try discriminate Hrun.
  injection Hrun as <- _. cbn [report_of delivered_spills collected_spills].
  rewrite final_acc_spills. cbn [init acc_spills].
  split; [apply answer_spills_nonneg|].
  pose proof (total_spills_nonneg (windows t0 t1 (combine starts ends))). lia.
Qed.
End Dependence.

Lemma intervals_outside_ignored_witness :
  get_livetime_interval (F := Binary64Float) three_spills example_t0 example_t1
    [1600000000000000; 1700000020000000] [1600000001000000; 1700000021000000] []
  = get_livetime_interval (F := Binary64Float) three_spills example_t0 example_t1 [] [] [].
Proof.
  apply (intervals_outside_ignored (F := Binary64Float) three_spills
           example_t0 example_t1).
  repeat constructor; cbn; unfold example_t0, example_t1; lia.
Defined.

Lemma clipping_beforehand_changes_nothing_witness :
  get_livetime_interval (F := Binary64Float) three_spills example_t0 example_t1
    (map (Z.max example_t0) [1699999999000000; 1700000005000000])
    (map (Z.min example_t1) [1700000002000000; 1700000012000000]) []
  = get_livetime_interval (F := Binary64Float) three_spills example_t0 example_t1
      [1699999999000000; 1700000005000000] [1700000002000000; 1700000012000000] [].
Proof.
  apply (clipping_beforehand_changes_nothing (F := Binary64Float) three_spills
           example_t0 example_t1).
  discriminate.
Defined.

Lemma delivered_is_full_window_query_witness :
  exists rep log',
    get_livetime_interval (F := Binary64Float) three_spills
      example_t0 example_t1 example_starts example_ends []
    = (Ok rep, log')
    /\ query_pot_interval (F := Binary64Float) three_spills example_t0 example_t1 []
       = (Ok (delivered_spills rep, delivered_pot rep),
          [] ++ [query_url example_t0 example_t1]).
Proof.
  destruct three_spills_run as (rep & log' & Hrun).
  exists rep, log'. split; [exact Hrun|].
  exact (delivered_is_full_window_query three_spills example_t0 example_t1
           example_starts example_ends [] log' [] rep Hrun).
Defined.

Lemma collected_pot_int_or_float_witness :
  exists rep log',
    get_livetime_interval (F := Binary64Float) three_spills
      example_t0 example_t1 example_starts example_ends []
    = (Ok rep, log')
    /\ exists x, collected_pot rep = PyFloat x.
Proof.
  destruct three_spills_run as (rep & log' & Hrun).
  exists rep, log'. split; [exact Hrun|].
  exact (collected_pot_int_or_float three_spills example_t0 example_t1
           example_starts example_ends [] log' rep Hrun).
Defined.

Lemma spill_counts_not_negative_witness :
  exists rep log',
    get_livetime_interval (F := Binary64Float) three_spills
      example_t0 example_t1 example_starts example_ends []
    = (Ok rep, log')
    /\ 0 <= delivered_spills rep /\ 0 <= collected_spills rep.
Proof.
  destruct three_spills_run as (rep & log' & Hrun).
  exists rep, log'. split; [exact Hrun|].
  exact (spill_counts_not_negative three_spills example_t0 example_t1
           example_starts example_ends [] log' rep Hrun).
Defined.

(** X11: the livetime of a report is the total length of the clipped
    windows, in seconds, and the fraction is its quotient by the length of
    the window: neither depends on what the service answers. *)
Theorem livetime_independent_of_service `{F : FloatOps}
  (service service' : string -> Response) (t0 t1 : datetime)
  (starts ends : list datetime) (log1 log1' log2 log2' : list string)
  (rep rep' : report) :
  get_livetime_interval service t0 t1 starts ends log1 = (Ok rep, log1') ->
  get_livetime_interval service' t0 t1 starts ends log2 = (Ok rep', log2') ->
  livetime rep
  = total_seconds
      (fold_right (fun p s => (Z.min t1 (snd p) - Z.max t0 (fst p)) + s) 0
         (filter (live t0 t1) (combine starts ends)))
  /\ livetime_fraction rep = float_div (livetime rep) (total_seconds (t1 - t0))
  /\ livetime rep' = livetime rep
  /\ livetime_fraction rep' = livetime_fraction rep.
Proof.
  intros Hrun Hrun'.
  apply get_livetime_interval_inv in Hrun, Hrun'.
  destruct Hrun as [-> _], Hrun' as [-> _].
  cbn [report_of livetime livetime_fraction]. rewrite !final_acc_overlap.
  cbn [init acc_overlap]. rewrite Z.add_0_l.
  repeat split. f_equal. unfold windows, total_overlap.
  induction (filter (live t0 t1) (combine starts ends)) as [|p l IH]; [reflexivity|].
  cbn [map fold_right clip fst snd]. now rewrite IH.
Qed.

Lemma livetime_independent_of_service_witness :
  exists rep rep' log1 log2,
    get_livetime_interval (F := Binary64Float) three_spills
      example_t0 example_t1 example_starts example_ends []
    = (Ok rep, log1)
    /\ get_livetime_interval (F := Binary64Float) no_beam
         example_t0 example_t1 example_starts example_ends []
       = (Ok rep', log2)
    /\ livetime rep' = livetime rep
    /\ livetime_fraction rep' = livetime_fraction rep.
Proof.
  destruct three_spills_run as (rep & log1 & Hrun).
  destruct (no_beam_run example_t0 example_t1 example_starts example_ends)
    as (rep' & log2 & Hrun'); [discriminate|].
  exists rep, rep', log1, log2. split; [exact Hrun|]. split; [exact Hrun'|].
  apply (livetime_independent_of_service three_spills no_beam example_t0 example_t1
           example_starts example_ends [] log1 [] log2 rep rep' Hrun Hrun').
Defined.

(** ** Two batches of intervals *)


Lemma total_overlap_app (l1 l2 : list (datetime * datetime)) :
  total_overlap (l1 ++ l2) = total_overlap l1 + total_overlap l2.
Proof.
  unfold total_overlap. induction l1 as [|w l1 IH]; cbn [app fold_right]; lia.
Qed.

Section Batches.
Context `{F : FloatOps}.
Variable requests_get : string -> Response.

End Batches.


(** ** Further facts of the doubles *)

(** Adding to [0.0]. *)
Lemma SFadd_zero_l (x : spec_float) :
  SFeqb x x = true ->
  SFeqb (SFadd Binary64.prec Binary64.emax (S754_zero false) x) x = true.
Proof.
  destruct x as [s|s| |s m e]; cbn; try (intros H; exact H); try discriminate.
  destruct s; reflexivity.
Qed.

(** A double of 53 bits over itself is [1.0]. *)
Lemma SFdiv_self (m : positive) (e : Z) :
  2 ^ 52 <= Zpos m < 2 ^ 53 -> -72 <= e <= 6 ->
  SFdiv Binary64.prec Binary64.emax (S754_finite false m e) (S754_finite false m e)
  = S754_finite false 4503599627370496 (-52).
Proof.
  intros Hm He. unfold SFdiv, SFdiv_core_binary.
  rewrite (Zdigits2_unique (Zpos m) 53)
    by (try split; try lia; change (2 ^ (53 - 1)) with (2 ^ 52); lia).
  assert (Hfexp : fexp Binary64.prec Binary64.emax (53 + e - (53 + e)) = e - e - 53).
  { unfold fexp, emin, Binary64.prec, Binary64.emax. lia. }
  rewrite Hfexp, Z.min_l by lia.
  replace (e - e - (e - e - 53)) with 53 by lia.
  cbv beta iota. rewrite Z.shiftl_mul_pow2 by lia.
  pose proof (Z_div_mod (Zpos m * 2 ^ 53) (Zpos m) ltac:(lia)) as Hdm.
  destruct (Z.div_eucl (Zpos m * 2 ^ 53) (Zpos m)) as [q r] eqn:Hqr.
  destruct Hdm as [Hdm Hr].
  assert (Hq : r = 0 /\ q = 2 ^ 53).
  { apply (quotient_unique (2 ^ 53) q (Zpos m) r); [lia| |assumption].
    rewrite (Z.mul_comm (2 ^ 53)), Hdm. ring. }
  destruct Hq as [-> ->]. replace (e - e - 53) with (-53) by lia.
  assert (Hloc : new_location (Zpos m) 0 = loc_Exact).
  { unfold new_location, new_location_even, new_location_odd.
    destruct (Z.even (Zpos m)); reflexivity. }
  rewrite Hloc. vm_compute. reflexivity.
Qed.

(** The number of seconds of a positive number of microseconds is a positive
    double of 53 bits, or the infinity. *)
Lemma truediv_million_positive (n : positive) :
  (exists (m3 : positive) (e3 : Z),
      Binary64.truediv (Zpos n) 1000000 = S754_finite false m3 e3
      /\ 2 ^ 52 <= Zpos m3 < 2 ^ 53 /\ -72 <= e3)
  \/ Binary64.truediv (Zpos n) 1000000 = S754_infinity false.
Proof.
  unfold Binary64.truediv. cbn [Z.abs Z.ltb Z.compare xorb].
  unfold SFdiv, SFdiv_core_binary.
  cbn [Zdigits2]. pose proof (digits2_pos_bounds n) as [Hlo Hhi].
  set (d := Zpos (digits2_pos n)) in *.
  change (Zpos (digits2_pos 1000000)) with 20.
  assert (Hd1 : 1 <= d) by (unfold d; lia).
  assert (Hfexp : fexp Binary64.prec Binary64.emax (d + 0 - (20 + 0)) = d - 73).
  { unfold fexp, emin, Binary64.prec, Binary64.emax. lia. }
  rewrite Hfexp. replace (0 - 0) with 0 by reflexivity.
  set (e := Z.min (d - 73) 0).
  assert (He : -72 <= e <= 0) by (unfold e; lia).
  set (m' := match 0 - e with
             | 0 => Zpos n
             | Zpos _ => Z.shiftl (Zpos n) (0 - e)
             | Zneg _ => 0
             end).
  assert (Hm'eq : m' = Zpos n * 2 ^ (- e)).
  { unfold m'. replace (0 - e) with (- e) by lia.
    destruct (- e) as [|p|p] eqn:Hs; try lia.
    now rewrite Z.shiftl_mul_pow2 by lia. }
  assert (Hm'lo : 2 ^ 72 <= m').
  { rewrite Hm'eq. unfold e. destruct (Z_le_gt_dec (d - 73) 0) as [H|H].
    - rewrite Z.min_l by assumption.
      replace 72 with ((d - 1) + - (d - 73)) by lia. rewrite Z.pow_add_r by lia.
      apply Z.mul_le_mono_nonneg_r; [apply Z.pow_nonneg; lia|assumption].
    - rewrite Z.min_r by lia. change (2 ^ (- 0)) with 1.
      assert (2 ^ 72 <= 2 ^ (d - 1)) by (apply Z.pow_le_mono_r; lia). lia. }
  pose proof (Z_div_mod m' 1000000 ltac:(lia)) as Hdm.
  destruct (Z.div_eucl m' 1000000) as [q r] eqn:Hqr. destruct Hdm as [Hdm Hr].
  assert (Hq : 2 ^ 52 <= q).
  { change (2 ^ 72) with (2 ^ 52 * 1048576) in Hm'lo. lia. }
  destruct (binary_round_aux_spec false q e r 1000000 Hq ltac:(lia) Hr)
    as (m3 & e3 & Hres & Hm3 & He3 & _).
  assert (Hdq : 53 <= Zdigits2 q).
  { destruct q as [|q|q]; try lia. cbn [Zdigits2].
    pose proof (digits2_pos_bounds q) as [Hqlo Hqhi'].
    set (dq := Zpos (digits2_pos q)) in *.
    destruct (Z_lt_le_dec dq 53) as [H|H]; [|assumption]. exfalso.
    assert (2 ^ dq <= 2 ^ 52) by (apply Z.pow_le_mono_r; lia). lia. }
  cbn [xorb]. rewrite Hres. destruct (e3 <=? 971); [left|right; reflexivity].
  exists m3, e3. split; [reflexivity|]. split; [assumption|].
  destruct He3 as [->|[-> _]]; lia.
Qed.

(** The quotient of two positive doubles of 53 bits is positive. *)
Lemma SFdiv_positive (mx my : positive) (ex ey : Z) :
  2 ^ 52 <= Zpos mx < 2 ^ 53 -> 2 ^ 52 <= Zpos my < 2 ^ 53 ->
  -72 <= ex -> ey <= 6 ->
  SFleb (S754_zero false)
    (SFdiv Binary64.prec Binary64.emax (S754_finite false mx ex) (S754_finite false my ey))
  = true.
Proof.
  intros Hmx Hmy Hex Hey. unfold SFdiv, SFdiv_core_binary.
  rewrite (Zdigits2_unique (Zpos mx) 53), (Zdigits2_unique (Zpos my) 53)
    by (try split; try lia; change (2 ^ (53 - 1)) with (2 ^ 52); lia).
  assert (Hfexp : fexp Binary64.prec Binary64.emax (53 + ex - (53 + ey)) = ex - ey - 53).
  { unfold fexp, emin, Binary64.prec, Binary64.emax. lia. }
  rewrite Hfexp, Z.min_l by lia.
  replace (ex - ey - (ex - ey - 53)) with 53 by lia.
  cbv beta iota. rewrite Z.shiftl_mul_pow2 by lia.
  set (m' := Zpos mx * 2 ^ 53).
  pose proof (Z_div_mod m' (Zpos my) ltac:(lia)) as Hdm.
  destruct (Z.div_eucl m' (Zpos my)) as [q r] eqn:Hqr. destruct Hdm as [Hdm Hr].
  assert (Hq : 2 ^ 52 <= q).
  { assert (q = m' / Zpos my) as ->.
    { apply Z.div_unique_pos with r; [lia|]. rewrite Hdm. ring. }
    unfold m'. apply Z.div_le_lower_bound; [lia|].
    change (2 ^ 53) with (2 * 2 ^ 52) in *. nia. }
  destruct (binary_round_aux_spec false q (ex - ey - 53) r (Zpos my)
              ltac:(lia) ltac:(lia) Hr)
    as (m3 & e3 & Hres & _).
  cbn [xorb]. rewrite Hres. destruct (e3 <=? 971); reflexivity.
Qed.

(** The integer part of a number of seconds, for the microseconds from the
    epoch to [2^34] seconds after it. *)
Lemma trunc_truediv_million (n : positive) :
  Zpos n < 17179869184000000 ->
  Binary64.trunc (Binary64.truediv (Zpos n) 1000000) = Zpos n / 1000000.
Proof.
  intros Hn.
  destruct (truediv_million_spec n ltac:(lia))
    as (m3 & e3 & -> & Hm3 & He3 & Hub & Hlb1 & Hlb2).
  assert (He18 : e3 <= -18).
  { destruct (Z_le_gt_dec e3 (-18)) as [H|H]; [assumption|exfalso].
    assert (Hp : 2 ^ 63 <= 2 ^ (e3 + 80)) by (apply Z.pow_le_mono_r; lia).
    change (2 ^ 80) with 1208925819614629174706176 in *.
    change (2 ^ 63) with 9223372036854775808 in *.
    change (2 ^ 54) with 18014398509481984 in *. lia. }
  set (p := - e3).
  assert (Hp : 18 <= p <= 72) by (unfold p; lia).
  set (P := 2 ^ p).
  set (T := 2 ^ (e3 + 80)) in *.
  assert (HT : 0 < T) by (apply Z.pow_pos_nonneg; lia).
  assert (HPT : 2 ^ 80 = P * T).
  { unfold P, T. rewrite <- Z.pow_add_r by lia. f_equal. unfold p. lia. }
  assert (HP18 : 262144 <= P).
  { change 262144 with (2 ^ 18). apply Z.pow_le_mono_r; lia. }
  assert (HP19 : P <= 262144 \/ 524288 <= P).
  { destruct (Z.eq_dec p 18) as [E|E].
    - left. unfold P. rewrite E. reflexivity.
    - right. change 524288 with (2 ^ 19). apply Z.pow_le_mono_r; lia. }
  rewrite HPT in Hub, Hlb1, Hlb2.
  assert (Hub' : 2 * (Zpos n * P) <= (2 * Zpos m3 + 1) * 1000000).
  { apply (Z.mul_le_mono_pos_r _ _ T HT).
    replace (2 * (Zpos n * P) * T) with (2 * (Zpos n * (P * T))) by ring.
    replace ((2 * Zpos m3 + 1) * 1000000 * T)
      with ((2 * Zpos m3 + 1) * (1000000 * T)) by ring.
    exact Hub. }
  assert (Hlb1' : (2 ^ 54 - 1) * 1000000 <= 4 * (Zpos n * P)).
  { apply (Z.mul_le_mono_pos_r _ _ T HT).
    replace (4 * (Zpos n * P) * T) with (4 * (Zpos n * (P * T))) by ring.
    replace ((2 ^ 54 - 1) * 1000000 * T) with ((2 ^ 54 - 1) * (1000000 * T)) by ring.
    exact Hlb1. }
  assert (Hlb2' : 2 ^ 52 < Zpos m3 -> (2 * Zpos m3 - 1) * 1000000 <= 2 * (Zpos n * P)).
  { intros Hbig. specialize (Hlb2 Hbig).
    apply (Z.mul_le_mono_pos_r _ _ T HT).
    replace (2 * (Zpos n * P) * T) with (2 * (Zpos n * (P * T))) by ring.
    replace ((2 * Zpos m3 - 1) * 1000000 * T)
      with ((2 * Zpos m3 - 1) * (1000000 * T)) by ring.
    exact Hlb2. }
  clear Hub Hlb1 Hlb2 HPT.
  unfold Binary64.trunc.
  replace (0 <=? e3) with false by (symmetry; apply Z.leb_gt; lia).
  fold p. fold P.
  pose proof (Z_div_mod_eq_full (Zpos n) 1000000) as Hk.
  pose proof (Z.mod_pos_bound (Zpos n) 1000000 ltac:(lia)) as Hf.
  set (k := Zpos n / 1000000) in *. set (f := Zpos n mod 1000000) in *.
  assert (Hk0 : 0 <= k) by (unfold k; apply Z.div_pos; lia).
  assert (HfP : 0 <= f * P <= 999999 * P) by nia.
  assert (HnP : Zpos n * P = 1000000 * (k * P) + f * P) by (rewrite Hk; ring).
  assert (HkP : 0 <= k * P) by nia.
  set (a := k * P) in *. set (b := f * P) in *.
  symmetry. apply (Z.div_unique_pos (Zpos m3) P k (Zpos m3 - a)); [|fold a; lia].
  change (2 ^ 54) with 18014398509481984 in *.
  change (2 ^ 53) with 9007199254740992 in *.
  change (2 ^ 52) with 4503599627370496 in *.
  split.
  - destruct (Z_le_gt_dec a (Zpos m3)) as [H|H]; [lia|exfalso]. lia.
  - destruct (Z_lt_le_dec (Zpos m3) (a + P)) as [H|H]; [lia|exfalso].
    destruct (Z.eq_dec (Zpos m3) 4503599627370496) as [E|E].
    + lia.
    + specialize (Hlb2' ltac:(lia)).
      destruct HP19 as [HP|HP]; [|lia].
      assert (HPe : P = 262144) by lia.
      rewrite HPe in *. lia.
Qed.

(** ** The exact floats satisfy the further facts *)

#[export] Instance ExactSignLaws : SignLaws ExactFloat.
Proof.
  assert (Hnn : forall a, 0 <= a -> (0 <= inject_Z a / inject_Z 1000000)%Q).
  { intros a Ha. apply Qle_shift_div_l; [reflexivity|]. rewrite Qmult_0_l.
    now rewrite <- (Zle_Qle 0). }
  split.
  - intros a Ha. change (Qle_bool 0 (Exact.truediv a 1000000) = true).
    rewrite Qle_bool_iff, Exact_truediv_eq. now apply Hnn.
  - intros a b Ha Hb _.
    change (Qle_bool 0 (Exact.div (Exact.truediv a 1000000) (Exact.truediv b 1000000)) = true).
    unfold Exact.div. rewrite Qle_bool_iff, Qred_correct, !Exact_truediv_eq.
    apply Qle_shift_div_l.
    + apply Qlt_shift_div_l; [reflexivity|]. rewrite Qmult_0_l.
      now rewrite <- (Zlt_Qlt 0).
    + rewrite Qmult_0_l. now apply Hnn.
Qed.

#[export] Instance ExactUnitLaws : UnitLaws ExactFloat.
Proof.
  split.
  - intros b Hb _.
    change (Qeq_bool (Exact.div (Exact.truediv b 1000000) (Exact.truediv b 1000000)) 1 = true).
    apply Qeq_eq_bool. unfold Exact.div. rewrite Qred_correct, !Exact_truediv_eq.
    apply Qmult_inv_r. intros H.
    assert (H0 : (inject_Z b == 0)%Q).
    { rewrite <- (Qmult_div_r (inject_Z b) (inject_Z 1000000)) by discriminate.
      rewrite H. apply Qmult_0_r. }
    unfold Qeq in H0. cbn in H0. lia.
  - intros x _. change (Qeq_bool (Exact.add 0 x) x = true).
    apply Qeq_eq_bool. unfold Exact.add. rewrite Qred_correct. apply Qplus_0_l.
Qed.

#[export] Instance ExactTimestampLaws : TimestampLaws ExactFloat.
Proof.
  split. intros us [Hus _].
  change (Exact.trunc (Exact.truediv us 1000000) = us / 1000000).
  unfold Exact.trunc.
  assert (Hfloor : Qfloor (Exact.truediv us 1000000) = us / 1000000).
  { rewrite (Qfloor_comp _ _ (Exact_truediv_eq us 1000000)).
    unfold Qfloor, Qdiv, Qmult, Qinv, inject_Z. cbn [Qnum Qden].
    rewrite Z.mul_1_r. reflexivity. }
  rewrite <- Hfloor. unfold Qfloor.
  destruct (Exact.truediv us 1000000) as [n d] eqn:E. cbn [Qnum Qden].
  apply Z.quot_div_nonneg; [|lia].
  assert (Hq : (0 <= n # d)%Q).
  { rewrite <- E, Exact_truediv_eq. apply Qle_shift_div_l; [reflexivity|].
    rewrite Qmult_0_l. now rewrite <- (Zle_Qle 0). }
  unfold Qle in Hq. cbn in Hq. lia.
Qed.

#[export] Instance ExactMonotoneLaws : MonotoneLaws ExactFloat.
Proof.
  split. intros a b [_ Hab] _.
  change (Qle_bool (Exact.truediv a 1000000) (Exact.truediv b 1000000) = true).
  rewrite Qle_bool_iff, !Exact_truediv_eq. now apply Exact_seconds_le.
Qed.

(** ** The doubles satisfy the further facts *)

#[export] Instance Binary64SignLaws : SignLaws Binary64Float.
Proof.
  split.
  - intros a Ha.
    change (SFleb (S754_zero false) (Binary64.truediv a 1000000) = true).
    destruct a as [|a|a]; try lia; [reflexivity|].
    destruct (truediv_million_positive a) as [(m & e & -> & _)| ->]; reflexivity.
  - intros a b Ha Hb Hrange.
    change (SFleb (S754_zero false)
              (SFdiv Binary64.prec Binary64.emax
                 (Binary64.truediv a 1000000) (Binary64.truediv b 1000000)) = true).
    unfold is_timedelta in Hrange. destruct b as [|b|b]; try lia.
    destruct (truediv_million_spec b ltac:(lia)) as (mb & eb & -> & Hmb & Heb & _).
    destruct a as [|a|a]; try lia; [reflexivity|].
    destruct (truediv_million_positive a) as [(ma & ea & -> & Hma & Hea)| ->];
      [|reflexivity].
    apply SFdiv_positive; try assumption; lia.
Qed.

#[export] Instance Binary64UnitLaws : UnitLaws Binary64Float.
Proof.
  split.
  - intros b Hb Hrange.
    change (SFeqb (SFdiv Binary64.prec Binary64.emax
                     (Binary64.truediv b 1000000) (Binary64.truediv b 1000000))
              (S754_finite false 4503599627370496 (-52)) = true).
    unfold is_timedelta in Hrange. destruct b as [|b|b]; try lia.
    destruct (truediv_million_spec b ltac:(lia)) as (mb & eb & -> & Hmb & Heb & _).
    rewrite (SFdiv_self mb eb Hmb Heb). reflexivity.
  - intros x Hx. now apply SFadd_zero_l.
Qed.

#[export] Instance Binary64TimestampLaws : TimestampLaws Binary64Float.
Proof.
  split. intros us [Hlo Hhi]. unfold whole_seconds_horizon in Hhi.
  change (Binary64.trunc (Binary64.truediv us 1000000) = us / 1000000).
  destruct us as [|n|n]; try lia; [reflexivity|].
  now apply trunc_truediv_million.
Qed.

(** Past the horizon the last microsecond of a second can round up to the
    next second: [17179869184.999999] is the double [17179869185.0]. *)
Example whole_seconds_horizon_sharp :
  float_trunc (timestamp (F := Binary64Float) 17179869184999999) = 17179869185
  /\ 17179869184999999 / 1000000 = 17179869184.
Proof. split; vm_compute; reflexivity. Qed.

#[export] Instance Binary64MonotoneLaws : MonotoneLaws Binary64Float.
Proof.
  split. intros a b [Ha Hab] Hrange. unfold is_timedelta in Hrange.
  change (SFleb (Binary64.truediv a 1000000) (Binary64.truediv b 1000000) = true).
  destruct a as [|a|a]; try lia.
  - destruct b as [|b|b]; try lia; [reflexivity|].
    destruct (truediv_million_spec b ltac:(lia)) as (m & e & -> & _). reflexivity.
  - destruct b as [|b|b]; try lia.
    apply truediv_million_mono; lia.
Qed.

(** ** Intervals that are not reversed *)

Lemma total_overlap_windows_nonneg (t0 t1 : datetime) (pairs : list (datetime * datetime)) :
  t0 <= t1 -> Forall (fun p => fst p <= snd p) pairs ->
  0 <= total_overlap (windows t0 t1 pairs).
Proof.
  intros Ht. induction 1 as [|[s e] l Hp _ IH]; [cbn; lia|].
  unfold windows in *. cbn [filter]. destruct (live t0 t1 (s, e)) eqn:Hl; [|exact IH].
  cbn [map]. rewrite total_overlap_cons.
  unfold live in Hl. cbn [fst snd] in *. apply negb_true_iff, skipped_false in Hl.
  unfold clip in *. cbn [fst snd]. unfold datetime in *. lia.
Qed.

Section Sign.
Context `{F : FloatOps} {S : SignLaws F}.
Variable requests_get : string -> Response.

(** X13: for a window [t0 < t1], when no interval is reversed, every
    [start <= end_], the livetime and the livetime fraction of a report are
    not negative. *)
Theorem forward_intervals_nonnegative_livetime (t0 t1 : datetime)
  (starts ends : list datetime) (log log' : list string) (rep : report) :
  t0 < t1 -> is_timedelta (t1 - t0) ->
  Forall (fun p => fst p <= snd p) (combine starts ends) ->
  get_livetime_interval requests_get t0 t1 starts ends log = (Ok rep, log') ->
  float_leb fzero (livetime rep) = true
  /\ float_leb fzero (livetime_fraction rep) = true.
Proof.
  intros Ht Hrange Hfw Hrun.
  apply get_livetime_interval_inv in Hrun. destruct Hrun as [-> _].
  cbn [report_of livetime livetime_fraction]. rewrite final_acc_overlap.
  cbn [init acc_overlap]. rewrite Z.add_0_l.
  assert (Hnn : 0 <= total_overlap (windows t0 t1 (combine starts ends))).
  { apply total_overlap_windows_nonneg; [unfold datetime in *; lia|assumption]. }
  split.
  - now apply seconds_nonneg.
  - apply seconds_ratio_nonneg; [assumption| |assumption]. unfold datetime in *. lia.
Qed.
End Sign.

Lemma forward_intervals_nonnegative_livetime_witness :
  exists rep log',
    get_livetime_interval (F := Binary64Float) three_spills
      example_t0 example_t1 example_starts example_ends []
    = (Ok rep, log')
    /\ float_leb fzero (livetime rep) = true
    /\ float_leb fzero (livetime_fraction rep) = true.
Proof.
  destruct three_spills_run as (rep & log' & Hrun).
  exists rep, log'. split; [exact Hrun|].
  apply (forward_intervals_nonnegative_livetime (F := Binary64Float) three_spills
           example_t0 example_t1 example_starts example_ends [] log' rep).
  - reflexivity.
  - unfold is_timedelta. cbn. lia.
  - repeat constructor; cbn; lia.
  - exact Hrun.
Defined.

(** ** An interval that covers the window *)

Section Covering.
Context `{F : FloatOps} {L : FloatLaws F} {U : UnitLaws F}.
Variable requests_get : string -> Response.

(** X14: for a window [t0 < t1] and the one interval [(start, end_)] that
    covers it, [start <= t0] and [t1 <= end_], the call asks the service the
    same question twice.  A report has the length of the window as livetime,
    a livetime fraction equal to [1.0], the delivered spills as collected
    spills, and a collected POT equal to the delivered POT when that is a
    number (not a NaN). *)
Theorem covering_interval_report (t0 t1 start end_ : datetime)
  (log log' : list string) (rep : report) :
  t0 < t1 -> is_timedelta (t1 - t0) -> start <= t0 -> t1 <= end_ ->
  get_livetime_interval requests_get t0 t1 [start] [end_] log = (Ok rep, log') ->
  log' = log ++ [query_url t0 t1; query_url t0 t1]
  /\ livetime rep = total_seconds (t1 - t0)
  /\ float_eqb (livetime_fraction rep) fone = true
  /\ collected_spills rep = delivered_spills rep
  /\ (float_eqb (delivered_pot rep) (delivered_pot rep) = true ->
      py_eqb (collected_pot rep) (PyFloat (delivered_pot rep)) = true).
Proof.
  intros Ht Hrange Hs He Hrun.
  assert (Hws : windows t0 t1 (combine [start] [end_]) = [(t0, t1)]).
  { unfold windows. cbn [combine filter].
    assert (Hl : live t0 t1 (start, end_) = true).
    { unfold live. cbn [fst snd]. apply negb_true_iff, skipped_false.
      unfold datetime in *. lia. }
    rewrite Hl. cbn [map fst snd]. unfold clip. unfold datetime in *.
    do 2 f_equal; lia. }
  pose proof (get_livetime_interval_cases requests_get t0 t1 [start] [end_] log) as Hc.
  cbv zeta in Hc. rewrite Hws in Hc.
  destruct Hc
    as [(l1 & w & l2 & e & _ & _ & _ & H)|[(_ & e & _ & H)|[(_ & _ & _ & H)|(_ & _ & _ & H)]]];
    rewrite H in Hrun; try discriminate Hrun.
  injection Hrun as <- <-.
  cbn [report_of final_acc fold_left add_query init livetime livetime_fraction
         collected_spills delivered_spills delivered_pot collected_pot
         acc_overlap acc_spills acc_pot fst snd map app url_of].
  rewrite !Z.add_0_l.
  repeat split.
  - apply seconds_ratio_self; [unfold datetime in *; lia|assumption].
  - intros Hnum. unfold py_add, py_eqb, as_float, float_of_int.
    rewrite truediv_zero by lia. now apply fadd_zero_l.
Qed.
End Covering.

Lemma covering_interval_report_witness :
  exists rep log',
    get_livetime_interval (F := Binary64Float) three_spills
      example_t0 example_t1 [1699999999000000] [1700000011000000] []
    = (Ok rep, log')
    /\ log' = [] ++ [query_url example_t0 example_t1; query_url example_t0 example_t1]
    /\ livetime rep = total_seconds (example_t1 - example_t0)
    /\ float_eqb (livetime_fraction rep) fone = true
    /\ collected_spills rep = delivered_spills rep
    /\ (float_eqb (delivered_pot rep) (delivered_pot rep) = true ->
        py_eqb (collected_pot rep) (PyFloat (delivered_pot rep)) = true).
Proof.
  assert (H : exists rep log',
             get_livetime_interval (F := Binary64Float) three_spills
               example_t0 example_t1 [1699999999000000] [1700000011000000] []
             = (Ok rep, log')).
  { eexists. eexists.
    apply (get_livetime_interval_ok (F := Binary64Float) three_spills
             example_t0 example_t1 [1699999999000000] [1700000011000000] []).
    - repeat constructor; eexists; vm_compute; reflexivity.
    - eexists; vm_compute; reflexivity.
    - reflexivity. }
  destruct H as (rep & log' & Hrun).
  exists rep, log'. split; [exact Hrun|].
  apply (covering_interval_report (F := Binary64Float) three_spills
           example_t0 example_t1 1699999999000000 1700000011000000 [] log' rep).
  - reflexivity.
  - unfold is_timedelta. cbn. lia.
  - discriminate.
  - discriminate.
  - exact Hrun.
Defined.

(** ** Whole seconds *)

Section WholeSeconds.
Context `{F : FloatOps} {T : TimestampLaws F}.
Variable requests_get : string -> Response.

(** X15: for instants from the epoch to the horizon, the URL carries the
    whole seconds of [t0] and [t1], the fraction of the second dropped; so
    two windows whose ends agree to the second make the same request and get
    the same answer. *)
Theorem url_carries_whole_seconds (t0 t1 : datetime) :
  0 <= t0 < whole_seconds_horizon -> 0 <= t1 < whole_seconds_horizon ->
  query_url t0 t1
  = (base ++ "/data?v=" ++ device_name ++ "&e=e,1d&t0="
       ++ str_of_int (t0 / 1000000) ++ "&t1=" ++ str_of_int (t1 / 1000000)
       ++ "&f=csv")%string
  /\ forall (t0' t1' : datetime) (log : list string),
       0 <= t0' < whole_seconds_horizon -> 0 <= t1' < whole_seconds_horizon ->
       t0' / 1000000 = t0 / 1000000 -> t1' / 1000000 = t1 / 1000000 ->
       query_pot_interval requests_get t0' t1' log
       = query_pot_interval requests_get t0 t1 log.
Proof.
  intros H0 H1.
  assert (Hurl : forall a b,
             0 <= a < whole_seconds_horizon -> 0 <= b < whole_seconds_horizon ->
             query_url a b
             = (base ++ "/data?v=" ++ device_name ++ "&e=e,1d&t0="
                  ++ str_of_int (a / 1000000) ++ "&t1=" ++ str_of_int (b / 1000000)
                  ++ "&f=csv")%string).
  { intros a b Ha Hb. unfold query_url.
    now rewrite (timestamp_whole_seconds a Ha), (timestamp_whole_seconds b Hb). }
  split; [now apply Hurl|].
  intros t0' t1' log H0' H1' E0 E1.
  rewrite !query_pot_interval_run. unfold answer. cbn [fst snd].
  now rewrite (Hurl t0 t1 H0 H1), (Hurl t0' t1' H0' H1'), E0, E1.
Qed.
End WholeSeconds.

Lemma url_carries_whole_seconds_witness :
  query_url (F := Binary64Float) 1700000000250000 1700000010999999
  = "https://dbdata1vm.fnal.gov:9443/ifbeam/data/data?v=E:TOR875&e=e,1d&t0=1700000000&t1=1700000010&f=csv"
  /\ query_pot_interval (F := Binary64Float) three_spills example_t0 example_t1 []
     = query_pot_interval (F := Binary64Float) three_spills
         1700000000250000 1700000010999999 [].
Proof.
  destruct (url_carries_whole_seconds (F := Binary64Float) three_spills
              1700000000250000 1700000010999999) as [Hurl Hsame].
  - split; [discriminate|reflexivity].
  - split; [discriminate|reflexivity].
  - split; [exact Hurl|].
    apply (Hsame example_t0 example_t1 []); try reflexivity;
      (split; [discriminate|reflexivity]).
Defined.

(** ** What the body is read for *)

Section Body.
Context `{F : FloatOps}.

(** X16: the query reads the body for the last comma-separated fields of
    the non-empty lines after the first line, and for nothing else: two
    responses of the same status whose bodies agree on these give the same
    outcome, whatever the header lines, the blank lines (a newline at the
    end included) and the other fields. *)
Theorem body_read_for_last_fields (service service' : string -> Response)
  (t0 t1 : datetime) (log : list string)
  (header header' : string) (lines lines' : list string) :
  status_code (service (query_url t0 t1)) = status_code (service' (query_url t0 t1)) ->
  text (service (query_url t0 t1)) = join newline (header :: lines) ->
  text (service' (query_url t0 t1)) = join newline (header' :: lines') ->
  contains newline header = false -> contains newline header' = false ->
  Forall (fun line => contains newline line = false) lines ->
  Forall (fun line => contains newline line = false) lines' ->
  map (fun line => last (split comma line) EmptyString) (filter nonempty lines)
  = map (fun line => last (split comma line) EmptyString) (filter nonempty lines') ->
  query_pot_interval service t0 t1 log = query_pot_interval service' t0 t1 log.
Proof.
  intros Hstatus Htext Htext' Hh Hh' Hl Hl' Hfields.
  rewrite !query_pot_interval_run. unfold answer, parse_response. cbn [fst snd].
  rewrite Hstatus, Htext, Htext'.
  now rewrite (sample_fields_join header lines Hh Hl),
    (sample_fields_join header' lines' Hh' Hl'), Hfields.
Qed.
End Body.

Lemma body_read_for_last_fields_witness :
  query_pot_interval (F := Binary64Float) three_spills example_t0 example_t1 []
  = query_pot_interval (F := Binary64Float) three_spills_relaid example_t0 example_t1 [].
Proof.
  apply (body_read_for_last_fields (F := Binary64Float) three_spills three_spills_relaid
           example_t0 example_t1 []
           "clock,value" "time,device,unit,value"
           ["1700000001500,1e16"; "1700000003500,1.0";
            "1700000005500,-1e16"; "1700000008500,2.5"; EmptyString]
           [EmptyString; "E:TOR875,1e16"; "1.0"; EmptyString; "a,b,c,-1e16";
            "1700000008500,E12,2.5"]).
  - vm_compute; reflexivity.
  - vm_compute; reflexivity.
  - vm_compute; reflexivity.
  - reflexivity.
  - reflexivity.
  - repeat constructor.
  - repeat constructor.
  - vm_compute; reflexivity.
Defined.

(** ** The text of the URL *)

Lemma append_cancel_l (p a b : string) : (p ++ a = p ++ b)%string -> a = b.
Proof.
  induction p as [|c p IH]; cbn; intros H; [assumption|].
  injection H as H. now apply IH.
Qed.

Lemma string_of_uint_no_ampersand (d : Decimal.uint) :
  contains ampersand (NilEmpty.string_of_uint d) = false.
Proof. induction d; cbn; try assumption; reflexivity. Qed.

Lemma str_of_int_no_ampersand (n : Z) : contains ampersand (str_of_int n) = false.
Proof.
  unfold str_of_int, NilZero.string_of_int, NilZero.string_of_uint.
  destruct (Z.to_int n) as [d|d]; destruct d; cbn -[NilEmpty.string_of_uint];
    try reflexivity; apply string_of_uint_no_ampersand.
Qed.

Lemma str_of_int_inj (n n' : Z) : str_of_int n = str_of_int n' -> n = n'.
Proof.
  unfold str_of_int. intros H.
  assert (Hnn : forall z, Z.to_int z <> Decimal.Pos Decimal.Nil
                          /\ Z.to_int z <> Decimal.Neg Decimal.Nil).
  { intros [|p|p]; cbn; split; try discriminate; intros E; injection E as E;
      now apply (DecimalPos.Unsigned.to_uint_nonnil p). }
  apply to_int_inj.
  assert (E : Some (Z.to_int n) = Some (Z.to_int n')).
  { rewrite <- (NilZero.isi (Z.to_int n)), <- (NilZero.isi (Z.to_int n'));
      try apply Hnn. now rewrite H. }
  now injection E.
Qed.

Lemma split_head (sep : ascii) (s s' rest rest' : string) :
  contains sep s = false -> contains sep s' = false ->
  (s ++ String sep rest = s' ++ String sep rest')%string -> s = s' /\ rest = rest'.
Proof.
  intros Hs Hs' H.
  assert (E : s :: split sep rest = s' :: split sep rest').
  { rewrite <- (split_append sep s rest Hs), <- (split_append sep s' rest' Hs').
    now rewrite H. }
  injection E as E _. subst s'. split; [reflexivity|].
  apply append_cancel_l in H. now injection H.
Qed.

Section Url.
Context `{F : FloatOps}.

Lemma query_url_inj (t0 t1 t0' t1' : datetime) :
  query_url t0 t1 = query_url t0' t1'
  <-> float_trunc (timestamp t0) = float_trunc (timestamp t0')
      /\ float_trunc (timestamp t1) = float_trunc (timestamp t1').
Proof.
  split.
  - unfold query_url. intros H.
    do 4 apply append_cancel_l in H.
    apply (split_head ampersand) in H; try apply str_of_int_no_ampersand.
    destruct H as [H0 H]. apply (append_cancel_l "t1=") in H.
    apply (split_head ampersand) in H; try apply str_of_int_no_ampersand.
    destruct H as [H1 _].
    split; now apply str_of_int_inj.
  - intros [H0 H1]. unfold query_url. now rewrite H0, H1.
Qed.
End Url.

Section SameRequest.
Context `{F : FloatOps} {T : TimestampLaws F}.

(** X17: for instants from the epoch to the horizon, two windows make the
    same request exactly when their starts agree to the second and their
    ends agree to the second. *)
Theorem same_request_iff_same_seconds (t0 t1 t0' t1' : datetime) :
  0 <= t0 < whole_seconds_horizon -> 0 <= t1 < whole_seconds_horizon ->
  0 <= t0' < whole_seconds_horizon -> 0 <= t1' < whole_seconds_horizon ->
  query_url t0 t1 = query_url t0' t1'
  <-> t0 / 1000000 = t0' / 1000000 /\ t1 / 1000000 = t1' / 1000000.
Proof.
  intros H0 H1 H0' H1'. rewrite query_url_inj.
  now rewrite !timestamp_whole_seconds by assumption.
Qed.
End SameRequest.

Lemma same_request_iff_same_seconds_witness :
  query_url (F := Binary64Float) 1700000000250000 1700000010999999
  = query_url (F := Binary64Float) example_t0 example_t1.
Proof.
  apply (same_request_iff_same_seconds (F := Binary64Float)
           1700000000250000 1700000010999999 example_t0 example_t1);
    try (split; [discriminate|reflexivity]).
  split; reflexivity.
Defined.

(** ** Intervals that do not overlap *)



Section Packed.
Context `{F : FloatOps} {R : RoundingLaws F}.
Variable requests_get : string -> Response.

End Packed.


(** ** A window cut in two *)



Section Cut.
Context `{F : FloatOps}.
Variable requests_get : string -> Response.

End Cut.


(** ** One interval more *)

Section More.
Context `{F : FloatOps} {M : MonotoneLaws F}.
Variable requests_get : string -> Response.

(** X20: for a window [t0 <= t1] and intervals that are not reversed, one
    interval more does not lower the livetime, as long as the overlap is a
    timedelta. *)
Theorem one_more_interval_not_less_livetime (t0 t1 start end_ : datetime)
  (starts ends : list datetime) (log1 log1' log2 log2' : list string)
  (rep rep' : report) :
  t0 <= t1 -> start <= end_ ->
  Forall (fun p => fst p <= snd p) (combine starts ends) ->
  is_timedelta
    (total_overlap (windows t0 t1 ((start, end_) :: combine starts ends))) ->
  get_livetime_interval requests_get t0 t1 starts ends log1 = (Ok rep, log1') ->
  get_livetime_interval requests_get t0 t1 (start :: starts) (end_ :: ends) log2
  = (Ok rep', log2') ->
  float_leb (livetime rep) (livetime rep') = true.
Proof.
  intros Ht Hse Hfw Hrange Hrun Hrun'.
  apply get_livetime_interval_inv in Hrun, Hrun'.
  destruct Hrun as [-> _], Hrun' as [-> _].
  cbn [report_of livetime]. rewrite !final_acc_overlap. cbn [init acc_overlap].
  rewrite !Z.add_0_l. cbn [combine] in *.
  apply seconds_mono; [|assumption].
  pose proof (total_overlap_windows_nonneg t0 t1 _ Ht Hfw) as H0.
  split; [assumption|].
  change ((start, end_) :: combine starts ends)
    with ([(start, end_)] ++ combine starts ends).
  rewrite windows_app, total_overlap_app.
  pose proof (total_overlap_windows_nonneg t0 t1 [(start, end_)] Ht
                ltac:(repeat constructor; assumption)). lia.
Qed.
End More.

Lemma one_more_interval_not_less_livetime_witness :
  exists rep rep' log log',
    get_livetime_interval (F := Binary64Float) no_beam example_t0 example_t1
      example_starts example_ends []
    = (Ok rep, log)
    /\ get_livetime_interval (F := Binary64Float) no_beam example_t0 example_t1
         (1700000007000000 :: example_starts) (1700000009000000 :: example_ends) []
       = (Ok rep', log')
    /\ float_leb (livetime rep) (livetime rep') = true.
Proof.
  destruct (no_beam_run example_t0 example_t1 example_starts example_ends)
    as (rep & log & Hrun); [discriminate|].
  destruct (no_beam_run example_t0 example_t1
              (1700000007000000 :: example_starts) (1700000009000000 :: example_ends))
    as (rep' & log' & Hrun'); [discriminate|].
  exists rep, rep', log, log'. split; [exact Hrun|]. split; [exact Hrun'|].
  apply (one_more_interval_not_less_livetime (F := Binary64Float) no_beam
           example_t0 example_t1 1700000007000000 1700000009000000
           example_starts example_ends [] log [] log' rep rep').
  - discriminate.
  - discriminate.
  - repeat constructor; discriminate.
  - unfold is_timedelta. vm_compute. discriminate.
  - exact Hrun.
  - exact Hrun'.
Defined.
